(** * Gmail-Automation: the mail gateway and the triage orchestrator

    A shallow embedding of
      - [gmail_client.py]  (class [GmailClient]: [list_messages],
        [read_message] with its nested [extract_parts], [create_draft]);
      - [email_agents.py]  ([get_latest_email], [run_email_automation]).

    Python strings are modelled as [string], one [ascii] per code point,
    i.e. the strings over U+0000..U+00FF; [str.lower], [str.strip],
    [in] and [str.split(..)[0]] are written out for that range.

    Everything the program receives from outside (the Gmail REST service,
    the CrewAI crews, [base64], [BeautifulSoup], [MIMEText]) is collected
    in a record [World] of oracles; the program itself is written in a
    small state-and-exception monad over the process state
    ([sys.stdout], the capture buffer, and the log of calls made). *)

From Stdlib Require Import String Ascii List Bool Arith Lia.
Import ListNotations.
Open Scope string_scope.

Set Implicit Arguments.
Set Warnings "-register-all".

(* ================================================================== *)
(** ** Python string operations *)

Module PyStr.

(** [str.isspace] on one code point below U+0100: TAB..CR, FS..US,
    SPACE, NEL and NBSP. *)
Definition isspace (c : ascii) : bool :=
  let n := nat_of_ascii c in
  (((9 <=? n) && (n <=? 13)) || ((28 <=? n) && (n <=? 32))
   || (n =? 133) || (n =? 160))%nat.

(** [str.lower] on one code point below U+0100: A..Z, and the Latin-1
    capitals U+00C0..U+00DE except the multiplication sign U+00D7. *)
Definition lower_char (c : ascii) : ascii :=
  let n := nat_of_ascii c in
  if (((65 <=? n) && (n <=? 90))
      || ((192 <=? n) && (n <=? 222) && negb (n =? 215)))%nat
  then ascii_of_nat (n + 32) else c.

Fixpoint lower (s : string) : string :=
  match s with
  | EmptyString => EmptyString
  | String c s' => String (lower_char c) (lower s')
  end.

Fixpoint rev (s : string) : string :=
  match s with
  | EmptyString => EmptyString
  | String c s' => rev s' ++ String c EmptyString
  end.

Fixpoint lstrip (s : string) : string :=
  match s with
  | EmptyString => EmptyString
  | String c s' => if isspace c then lstrip s' else s
  end.

Definition rstrip (s : string) : string := rev (lstrip (rev s)).

(** [s.strip()] *)
Definition strip (s : string) : string := rstrip (lstrip s).

(** Truth value of a string: [bool(s)]. *)
Definition truthy (s : string) : bool :=
  match s with EmptyString => false | String _ _ => true end.

(** [s.find(sub)]: offset of the first occurrence, scanning from the
    left. *)
Fixpoint find (sub s : string) : option nat :=
  if prefix sub s then Some 0
  else match s with
       | EmptyString => None
       | String _ s' => option_map S (find sub s')
       end.

(** [sub in s] *)
Definition contains (sub s : string) : bool :=
  match find sub s with Some _ => true | None => false end.

(** [s.split(sep)[0]] for a non-empty [sep]: the text before the first
    occurrence of [sep], all of [s] when there is none. *)
Definition split_head (sep s : string) : string :=
  match find sep s with
  | Some i => substring 0 i s
  | None => s
  end.

End PyStr.

(* ================================================================== *)
(** ** Values exchanged with the outside *)

(** Exceptions, as far as the program's handlers tell them apart:
    [read_message] catches [googleapiclient.errors.HttpError] only, the
    orchestrator catches [Exception]. *)
Inductive exn :=
| HttpError
| OtherException (cls : string).

Definition TypeError : exn := OtherException "TypeError".
Definition KeyError : exn := OtherException "KeyError".

Inductive res (A : Type) :=
| Ok (a : A)
| Raise (e : exn).
Arguments Ok {A} a.
Arguments Raise {A} e.

(** JSON-like values returned by the REST service where the program
    keeps them opaque. *)
Inductive pyval :=
| PyNone
| PyString (s : string)
| PyDict (items : list (string * pyval)).

Fixpoint dict_get (k : string) (items : list (string * pyval)) : option pyval :=
  match items with
  | [] => None
  | (k', v) :: rest => if (k' =? k)%string then Some v else dict_get k rest
  end.

(** An entry of [results.get("messages", [])]. *)
Record message_ref := { msg_id : string }.

Record header := { name : string; value : string }.

(** A MIME part of the payload: [part.get("mimeType", "")],
    [part.get("body", {}).get("data")], and [part["parts"]] when the key
    is there. *)
Inductive part :=
| Part (mimeType : string) (data : option string) (parts : option (list part)).

(** [message.get("payload", {})]: the top-level part together with
    [payload.get("headers", [])]. *)
Record payload := {
  headers : list header;
  p_mimeType : string;
  p_data : option string;
  p_parts : option (list part)
}.

Definition empty_payload : payload :=
  {| headers := []; p_mimeType := ""; p_data := None; p_parts := None |}.

(** What [read_message] returns on success. *)
Record Message := {
  sender : string;
  subject : string;
  body : string;
  body_html : string
}.

(** *** CrewAI *)

Inductive agent := reader_agent | decision_agent | draft_agent.

(** A task description is an f-string over a fixed template; the
    template is kept as a constructor and the interpolated values as its
    arguments.  [{decision}] renders [None] too, hence the option. *)
Inductive prompt :=
| SummarizePrompt (subject sender email_text : string)
| DecidePrompt (email_text : string)
| DraftPrompt (email_text : string) (decision : option string).

Record Task := { description : prompt; task_agent : agent }.

Record Crew := { agents : list agent; tasks : list Task }.

(** A task output as the program probes it: three optional attributes
    ([getattr(.., None)], a string when present) and [str(task_output)]. *)
Record TaskOutput := {
  output_text : option string;
  raw_output : option string;
  final_output : option string;
  task_str : string
}.

(** A crew result: [tasks_output] when [hasattr] finds it, and
    [str(result)], which the program guards with [try] ([None]: it
    raises). *)
Record CrewOutput := {
  tasks_output : option (list TaskOutput);
  crew_str : option string
}.

(* ================================================================== *)
(** ** Process state, log and monad *)

(** What [sys.stdout] is bound to: the stream the process started with,
    or the [io.StringIO] capture buffer. *)
Inductive stream := Console | Capture.

(** The program's [print] sites, with the values they interpolate. *)
Inductive msg :=
| MsgFound (n : nat)
| MsgHttpError
| MsgDraftSaved (id : pyval)
| MsgNoNewMessages
| MsgUnexpectedFormat
| MsgStarting
| MsgNoEmailData
| MsgEmptyBody
| MsgProcessing
| MsgReaderSummary (summary : option string)
| MsgDecision (decision : option string)
| MsgNoReplyNeeded
| MsgGeneratingDraft
| MsgDraftReply (draft : string)
| MsgDraftCreated
| MsgNoValidDraft
| MsgError (e : exn)
| MsgCrew (text : string).

Inductive event :=
| ApiMessagesList (max_results : nat)
| ApiMessagesGet (id : string)
| ApiDraftsCreate (raw : string)
| CallCreateDraft (to subject body : string)
| Kickoff (c : Crew)
| Printed (dest : stream) (m : msg).

Record state := {
  sys_stdout : stream;
  buffer : string;
  log : list event
}.

Definition initial_state : state :=
  {| sys_stdout := Console; buffer := ""; log := [] |}.

Definition M (A : Type) : Type := state -> res A * state.

Definition ret {A} (a : A) : M A := fun s => (Ok a, s).

Definition bind {A B} (m : M A) (k : A -> M B) : M B :=
  fun s => match m s with
           | (Ok a, s') => k a s'
           | (Raise e, s') => (Raise e, s')
           end.

Definition raise {A} (e : exn) : M A := fun s => (Raise e, s).

(** [try: m  except <handled by h>: ...]; [h] re-raises what the clause
    does not catch. *)
Definition try_except {A} (m : M A) (h : exn -> M A) : M A :=
  fun s => match m s with
           | (Ok a, s') => (Ok a, s')
           | (Raise e, s') => h e s'
           end.

Declare Scope py_scope.
Delimit Scope py_scope with py.
Notation "x <- m ;; k" := (bind m (fun x => k))
  (at level 61, m at next level, right associativity) : py_scope.
Notation "m ;; k" := (bind m (fun _ => k))
  (at level 61, right associativity) : py_scope.
Open Scope py_scope.

Definition record (e : event) : M unit :=
  fun s => (Ok tt, {| sys_stdout := sys_stdout s; buffer := buffer s;
                      log := log s ++ [e] |}).

(** [print(..)] of one of the program's own messages: it goes to
    whatever [sys.stdout] is at that moment. *)
Definition print (m : msg) : M unit :=
  fun s => record (Printed (sys_stdout s) m) s.

(** Text written to [sys.stdout] by a crew while it runs: into the
    buffer when the capture is installed, to the console otherwise. *)
Definition write (text : string) : M unit :=
  fun s => match sys_stdout s with
           | Console => record (Printed Console (MsgCrew text)) s
           | Capture => (Ok tt, {| sys_stdout := Capture;
                                   buffer := buffer s ++ text;
                                   log := log s |})
           end.

Definition get_stdout : M stream := fun s => (Ok (sys_stdout s), s).

Definition set_stdout (t : stream) : M unit :=
  fun s => (Ok tt, {| sys_stdout := t; buffer := buffer s; log := log s |}).

(** [buffer = io.StringIO()] *)
Definition new_buffer : M unit :=
  fun s => (Ok tt, {| sys_stdout := sys_stdout s; buffer := ""; log := log s |}).

(** [buffer.getvalue()] *)
Definition getvalue : M string := fun s => (Ok (buffer s), s).

Definition lift {A} (r : res A) : M A := fun s => (r, s).

(* ================================================================== *)
(** ** The outside world *)

(** Answers of everything the program calls but does not define.  Each
    call either returns or raises. *)
Record World := {
  (** [service.users().messages().list(userId="me", maxResults=n)
      .execute()], reduced to its ["messages"] key ([None]: no such
      key). *)
  messages_list : nat -> res (option (list message_ref));
  (** [service.users().messages().get(userId="me", id=.., format="full")
      .execute()], reduced to its ["payload"] key. *)
  messages_get : string -> res (option payload);
  (** [service.users().drafts().create(userId="me",
      body={"message": {"raw": raw}}).execute()] *)
  drafts_create : string -> res pyval;
  (** [crew.kickoff()]: the text the crew prints while it runs, and its
      result. *)
  kickoff_crew : Crew -> string * res CrewOutput;
  (** [base64.urlsafe_b64decode(data).decode("utf-8", errors="ignore")] *)
  b64decode_utf8 : string -> string;
  (** [BeautifulSoup(html, "html.parser").get_text(separator="\n")] *)
  soup_get_text : string -> string;
  (** [base64.urlsafe_b64encode(m.as_bytes()).decode()] for
      [m = MIMEText(body)] with [m["to"]] and [m["subject"]] set. *)
  mime_raw : string -> string -> string -> string
}.

(* ================================================================== *)
(** ** gmail_client.py *)

Module GmailClient.
Section Client.

Variable w : World.

(** [list_messages(self, max_results=5)] *)
Definition list_messages (max_results : nat) : M (list message_ref) :=
  record (ApiMessagesList max_results) ;;
  results <- lift (messages_list w max_results) ;;
  let messages := match results with Some l => l | None => [] end in
  print (MsgFound (List.length messages)) ;;
  ret messages.

(** [next((h["value"] for h in headers if h["name"] == key), default)] *)
Fixpoint header_value (key default : string) (hs : list header) : string :=
  match hs with
  | [] => default
  | h :: rest => if (name h =? key)%string then value h
                 else header_value key default rest
  end.

(** One iteration of the loop of [extract_parts] on the pair
    ([body], [body_html]) of the enclosing [read_message], followed by
    the recursive call on the part's own ["parts"]. *)
Fixpoint extract_part (p : part) (acc : string * string) : string * string :=
  match p with
  | Part mime_type data sub =>
      let acc1 :=
        match data with
        | Some d =>
            if PyStr.truthy d then
              let decoded := b64decode_utf8 w d in
              if (mime_type =? "text/plain")%string then
                (fst acc ++ decoded, snd acc)
              else if (mime_type =? "text/html")%string then
                (fst acc, snd acc ++ decoded)
              else acc
            else acc
        | None => acc
        end in
      match sub with
      | Some ps =>
          (fix extract_parts (ps : list part) (acc : string * string) :=
             match ps with
             | [] => acc
             | q :: qs => extract_parts qs (extract_part q acc)
             end) ps acc1
      | None => acc1
      end
  end.

(** [extract_parts(parts)]: the [for part in parts] loop. *)
Definition extract_parts (ps : list part) (acc : string * string)
  : string * string :=
  fold_left (fun a q => extract_part q a) ps acc.

(** The body of the [try] of [read_message] after the fetch. *)
Definition decode_message (message : option payload) : Message :=
  let payload := match message with Some p => p | None => empty_payload end in
  let hs := headers payload in
  let sender := header_value "From" "Unknown" hs in
  let subject := header_value "Subject" "No Subject" hs in
  let '(body, body_html) :=
    match p_parts payload with
    | Some ps => extract_parts ps ("", "")
    | None =>
        match p_data payload with
        | Some d => if PyStr.truthy d then (b64decode_utf8 w d, "") else ("", "")
        | None => ("", "")
        end
    end in
  let body :=
    if negb (PyStr.truthy body) && PyStr.truthy body_html
    then soup_get_text w body_html else body in
  {| sender := sender; subject := subject;
     body := PyStr.strip body; body_html := PyStr.strip body_html |}.

(** [read_message(self, msg_id)]; [None] is the value returned by the
    [except HttpError] clause. *)
Definition read_message (id : string) : M (option Message) :=
  try_except
    (record (ApiMessagesGet id) ;;
     message <- lift (messages_get w id) ;;
     ret (Some (decode_message message)))
    (fun e => match e with
              | HttpError => print MsgHttpError ;; ret None
              | OtherException _ => raise e
              end).

(** [draft['id']] *)
Definition subscript_id (draft : pyval) : M pyval :=
  match draft with
  | PyDict items =>
      match dict_get "id" items with
      | Some v => ret v
      | None => raise KeyError
      end
  | _ => raise TypeError
  end.

(** [create_draft(self, to, subject, body)] *)
Definition create_draft (to subject body : string) : M pyval :=
  record (CallCreateDraft to subject body) ;;
  let raw_message := mime_raw w to subject body in
  record (ApiDraftsCreate raw_message) ;;
  draft <- lift (drafts_create w raw_message) ;;
  id <- subscript_id draft ;;
  print (MsgDraftSaved id) ;;
  ret draft.

End Client.
End GmailClient.

(* ================================================================== *)
(** ** email_agents.py *)

Module EmailAgents.
Section Agents.

Variable w : World.

(** Truth value of an attribute that is [None] or a string. *)
Definition truthy_opt (v : option string) : bool :=
  match v with Some s => PyStr.truthy s | None => false end.

(** Python's [a or b] on such values. *)
Definition py_or (a b : option string) : option string :=
  if truthy_opt a then a else b.

(** [not draft_reply or not draft_reply.strip()] *)
Definition blank (v : option string) : bool :=
  match v with
  | Some s => negb (PyStr.truthy s) || negb (PyStr.truthy (PyStr.strip s))
  | None => true
  end.

(** [crew.kickoff()]: the crew's prints go to the current
    [sys.stdout], also when it ends by raising. *)
Definition kickoff (c : Crew) : M CrewOutput :=
  record (Kickoff c) ;;
  write (fst (kickoff_crew w c)) ;;
  lift (snd (kickoff_crew w c)).

(** [get_latest_email()] *)
Definition get_latest_email : M (option Message) :=
  messages <- GmailClient.list_messages w 1 ;;
  match messages with
  | [] => print MsgNoNewMessages ;; ret None
  | first :: _ =>
      m <- GmailClient.read_message w (msg_id first) ;;
      match m with
      | None => print MsgUnexpectedFormat ;; ret None
      | Some m => ret (Some m)
      end
  end.

Definition read_task (email_data : Message) (email_text : string) : Task :=
  {| description :=
       SummarizePrompt (subject email_data) (sender email_data) email_text;
     task_agent := reader_agent |}.

Definition decide_task (email_text : string) : Task :=
  {| description := DecidePrompt email_text; task_agent := decision_agent |}.

Definition decision_crew (email_data : Message) (email_text : string) : Crew :=
  {| agents := [reader_agent; decision_agent];
     tasks := [read_task email_data email_text; decide_task email_text] |}.

Definition draft_task (email_text : string) (decision : option string) : Task :=
  {| description := DraftPrompt email_text decision; task_agent := draft_agent |}.

Definition draft_crew (email_text : string) (decision : option string) : Crew :=
  {| agents := [draft_agent]; tasks := [draft_task email_text decision] |}.

(** [getattr(t, "output_text", None) or getattr(t, "raw_output", None)
     or getattr(t, "final_output", None) or str(t)] *)
Definition output_value (t : TaskOutput) : string :=
  match py_or (output_text t) (py_or (raw_output t) (final_output t)) with
  | Some s => if PyStr.truthy s then s else task_str t
  | None => task_str t
  end.

(** The [for i, task_output in enumerate(result.tasks_output)] loop on
    the pair ([reader_summary], [decision]). *)
Fixpoint scan_outputs (i : nat) (outs : list TaskOutput)
  (acc : option string * option string) : option string * option string :=
  match outs with
  | [] => acc
  | task_output :: rest =>
      let v := output_value task_output in
      let acc' := match i with
                  | 0 => (Some v, snd acc)
                  | 1 => (fst acc, Some (PyStr.lower v))
                  | _ => acc
                  end in
      scan_outputs (S i) rest acc'
  end.

(** Lines 128-140: ([reader_summary], [decision]) from the result of
    the first crew. *)
Definition read_decision (result : CrewOutput) : option string * option string :=
  match tasks_output result with
  | Some outs => scan_outputs 0 outs (None, None)
  | None => (None, None)
  end.

(** [decision and "no reply" in decision] *)
Definition no_reply (decision : option string) : bool :=
  match decision with
  | Some d => PyStr.truthy d && PyStr.contains "no reply" d
  | None => false
  end.

Definition MARKER : string := "Type of draft_result:".

(** Lines 173-182: the structured outputs of the draft crew. *)
Definition structured_reply (draft_result : CrewOutput) : option string :=
  match tasks_output draft_result with
  | Some (first_output :: _) =>
      py_or (output_text first_output)
            (py_or (raw_output first_output) (final_output first_output))
  | _ => None
  end.

(** Lines 173-194: the fallback chain that picks the draft text. *)
Definition pick_reply (draft_result : CrewOutput) (streamed_output : string)
  : option string :=
  let draft_reply := structured_reply draft_result in
  let draft_reply :=
    if blank draft_reply then
      match crew_str draft_result with
      | Some s => Some (PyStr.strip s)
      | None => draft_reply
      end
    else draft_reply in
  if blank draft_reply && PyStr.truthy streamed_output
  then Some streamed_output else draft_reply.

(** Lines 196-198; [in] on [None] raises [TypeError]. *)
Definition cleanup (draft_reply : option string) : M string :=
  match draft_reply with
  | None => raise TypeError
  | Some d =>
      if PyStr.contains MARKER d
      then ret (PyStr.strip (PyStr.split_head MARKER d))
      else ret d
  end.

(** Lines 204-210. *)
Definition save_draft (email_data : Message) (draft_reply : string) : M unit :=
  if PyStr.truthy draft_reply && PyStr.truthy (PyStr.strip draft_reply) then
    let sender := sender email_data in
    let subject := "Re: " ++ subject email_data in
    GmailClient.create_draft w sender subject draft_reply ;;
    print MsgDraftCreated
  else print MsgNoValidDraft.

(** Lines 149-210: the drafting step.  [sys.stdout] is rebound by two
    plain assignments around the kickoff; [buffer.close()] has no effect
    that is observed afterwards and is left out. *)
Definition drafting (email_data : Message) (email_text : string)
  (decision : option string) : M unit :=
  print MsgGeneratingDraft ;;
  let crew := draft_crew email_text decision in
  new_buffer ;;
  saved <- get_stdout ;;
  set_stdout Capture ;;
  draft_result <- kickoff crew ;;
  set_stdout saved ;;
  text <- getvalue ;;
  let streamed_output := PyStr.strip text in
  draft_reply <- cleanup (pick_reply draft_result streamed_output) ;;
  print (MsgDraftReply draft_reply) ;;
  save_draft email_data draft_reply.

(** Lines 126-210: the body of the [try]. *)
Definition triage (email_data : Message) (email_text : string) : M unit :=
  result <- kickoff (decision_crew email_data email_text) ;;
  let '(reader_summary, decision) := read_decision result in
  print (MsgReaderSummary reader_summary) ;;
  print (MsgDecision decision) ;;
  if no_reply decision then print MsgNoReplyNeeded
  else drafting email_data email_text decision.

(** [run_email_automation()] *)
Definition run_email_automation : M unit :=
  print MsgStarting ;;
  email_data <- get_latest_email ;;
  match email_data with
  | None => print MsgNoEmailData
  | Some email_data =>
      let email_text := PyStr.strip (body email_data) in
      if negb (PyStr.truthy email_text) then print MsgEmptyBody
      else
        print MsgProcessing ;;
        try_except (triage email_data email_text)
                   (fun e => print (MsgError e))
  end.

End Agents.
End EmailAgents.

(* ================================================================== *)
(** ** Runs and what is observed of them *)

(** One invocation of the entry point in a fresh process. *)
Definition run (w : World) : res unit * state :=
  EmailAgents.run_email_automation w initial_state.

Definition final_log (w : World) : list event := log (snd (run w)).

(** The crews kicked off, in order. *)
Definition kickoffs (l : list event) : list Crew :=
  flat_map (fun e => match e with Kickoff c => [c] | _ => [] end) l.

(** The calls of [create_draft], in order, as ([to], [subject], [body]). *)
Definition created_drafts (l : list event) : list (string * string * string) :=
  flat_map (fun e => match e with
                     | CallCreateDraft to subject body => [(to, subject, body)]
                     | _ => []
                     end) l.

(** The requests sent to the mail service by a stretch of the log. *)
Definition api_calls (l : list event) : list event :=
  filter (fun e => match e with
                   | ApiMessagesList _ | ApiMessagesGet _ | ApiDraftsCreate _ => true
                   | _ => false
                   end) l.

(** The message the run works on: what [get_latest_email] returns. *)
Definition original_message (w : World) : res (option Message) :=
  fst (EmailAgents.get_latest_email w initial_state).

(** The classification string: [str(output_value)] of the task output
    at index 1, before it is lower-cased. *)
Definition classification (result : CrewOutput) : option string :=
  match tasks_output result with
  | Some outs => option_map EmailAgents.output_value (nth_error outs 1)
  | None => None
  end.

(** [s] contains [needle] in some casing. *)
Definition contains_anycase (needle s : string) : Prop :=
  exists pre m post,
    s = pre ++ m ++ post /\ PyStr.lower m = PyStr.lower needle.

(** [sub] occurs in [s] at offset [length pre]. *)
Definition occurs_after (pre sub s : string) : Prop :=
  exists post, s = pre ++ sub ++ post.

(** *** The MIME tree, as the data model describes it *)

Module Mime.
Section Texts.

Variable w : World.

(** The decoded text a single part carries for content type [mime]. *)
Definition own_text (mime : string) (mime_type : string) (data : option string)
  : string :=
  match data with
  | Some d => if PyStr.truthy d && (mime_type =? mime)%string
              then b64decode_utf8 w d else ""
  | None => ""
  end.

(** Depth-first concatenation of the segments of content type [mime]:
    a part's own text, then that of its nested parts, in order. *)
Fixpoint texts_of (mime : string) (p : part) : string :=
  match p with
  | Part mime_type data sub =>
      own_text mime mime_type data ++
      match sub with
      | Some ps =>
          (fix texts_of_list (ps : list part) : string :=
             match ps with
             | [] => ""
             | q :: qs => texts_of mime q ++ texts_of_list qs
             end) ps
      | None => ""
      end
  end.

Definition texts_of_list (mime : string) (ps : list part) : string :=
  fold_right (fun q rest => texts_of mime q ++ rest) "" ps.

End Texts.

(** Some part of the tree declares content type [mime]. *)
Fixpoint has_mime (mime : string) (p : part) : bool :=
  match p with
  | Part mime_type _ sub =>
      (mime_type =? mime)%string ||
      match sub with
      | Some ps => existsb (has_mime mime) ps
      | None => false
      end
  end.

End Mime.

(* ================================================================== *)
(** ** Sample worlds *)

Module Samples.

(** A stand-in for [get_text]: drops what is between [<] and [>]. *)
Fixpoint strip_tags (inside : bool) (s : string) : string :=
  match s with
  | EmptyString => EmptyString
  | String c s' =>
      if (c =? "<")%char then strip_tags true s'
      else if (c =? ">")%char then strip_tags false s'
      else if inside then strip_tags inside s'
      else String c (strip_tags inside s')
  end.

(** A world that answers every call of a kind the same way; payload
    data is given in clear (the decoder is the identity). *)
Definition sample_world
  (listing : res (option (list message_ref)))
  (fetch : res (option payload))
  (decide draft : string * res CrewOutput)
  (created : res pyval) : World :=
  {| messages_list := fun _ => listing;
     messages_get := fun _ => fetch;
     drafts_create := fun _ => created;
     kickoff_crew := fun c => match agents c with
                              | [draft_agent] => draft
                              | _ => decide
                              end;
     b64decode_utf8 := fun d => d;
     soup_get_text := strip_tags false;
     mime_raw := fun to subject body =>
       "to: " ++ to ++ "; subject: " ++ subject ++ "; " ++ body |}.

(** A task output with none of the probed attributes. *)
Definition says (s : string) : TaskOutput :=
  {| output_text := None; raw_output := None; final_output := None;
     task_str := s |}.

Definition crew_says (l : list string) (s : string) : CrewOutput :=
  {| tasks_output := Some (map says l); crew_str := Some s |}.

Definition lunch_headers : list header :=
  [ {| name := "Subject"; value := "Lunch?" |};
    {| name := "From"; value := "Ann <ann@example.org>" |} ].

(** [multipart/alternative] with a plain and an HTML rendering. *)
Definition lunch_payload : payload :=
  {| headers := lunch_headers;
     p_mimeType := "multipart/alternative";
     p_data := None;
     p_parts := Some [ Part "text/plain" (Some "Are you free at noon? ") None;
                       Part "text/html" (Some "<p>Are you free at <b>noon</b>?</p>") None ] |}.

(** The same, the plain part being empty. *)
Definition empty_plain_payload : payload :=
  {| headers := lunch_headers;
     p_mimeType := "multipart/alternative";
     p_data := None;
     p_parts := Some [ Part "text/plain" None None;
                       Part "text/html" (Some "<p>Are you free at <b>noon</b>?</p>") None ] |}.

(** A multipart message whose only text is HTML. *)
Definition html_multipart_payload : payload :=
  {| headers := lunch_headers;
     p_mimeType := "multipart/mixed";
     p_data := None;
     p_parts := Some [ Part "multipart/related" None
                         (Some [ Part "text/html" (Some "<p>Hi <i>there</i></p> ") None;
                                 Part "image/png" (Some "iVBORw0KGgo") None ]) ] |}.

(** A message that is a single [text/html] body, without parts. *)
Definition html_single_payload : payload :=
  {| headers := lunch_headers;
     p_mimeType := "text/html";
     p_data := Some "<p>Hi <i>there</i></p>";
     p_parts := None |}.

Definition draft_obj : pyval :=
  PyDict [("id", PyString "r-42"); ("message", PyDict [("id", PyString "m-7")])].

Definition inbox : res (option (list message_ref)) :=
  Ok (Some [ {| msg_id := "m-1" |} ]).

Definition follow_up : string * res CrewOutput :=
  ("", Ok (crew_says ["Ann asks about lunch."; "Follow-up"] "Follow-up")).

(** The whole pipeline succeeds. *)
Definition w_reply : World :=
  sample_world inbox (Ok (Some lunch_payload)) follow_up
    ("", Ok (crew_says ["Sure, noon works."] "Sure, noon works."))
    (Ok draft_obj).

(** The classifier answers with the sentinel, capitalised. *)
Definition w_no_reply : World :=
  sample_world inbox (Ok (Some lunch_payload))
    ("", Ok (crew_says ["A newsletter."; "Decision: No Reply Needed."] ""))
    ("", Ok (crew_says ["Sure, noon works."] "Sure, noon works."))
    (Ok draft_obj).

(** No message in the mailbox. *)
Definition w_empty : World :=
  sample_world (Ok (Some [])) (Ok (Some lunch_payload)) follow_up
    ("", Ok (crew_says ["Sure, noon works."] "Sure, noon works."))
    (Ok draft_obj).

(** The first crew's result has no [tasks_output]. *)
Definition w_no_decision : World :=
  sample_world inbox (Ok (Some lunch_payload))
    ("", Ok {| tasks_output := None; crew_str := Some "Follow-up" |})
    ("", Ok (crew_says ["Sure, noon works."] "Sure, noon works."))
    (Ok draft_obj).

(** The draft crew raises after printing. *)
Definition w_draft_raises : World :=
  sample_world inbox (Ok (Some lunch_payload)) follow_up
    ("Working...", Raise (OtherException "RateLimitError"))
    (Ok draft_obj).

(** The draft text carries the debug marker after two blanks. *)
Definition marked_reply : string :=
  "Sure, noon works.  Type of draft_result: <class 'CrewOutput'>".

Definition w_marker : World :=
  sample_world inbox (Ok (Some lunch_payload)) follow_up
    ("", Ok {| tasks_output :=
                 Some [ {| output_text := Some marked_reply; raw_output := None;
                           final_output := None; task_str := marked_reply |} ];
               crew_str := Some marked_reply |})
    (Ok draft_obj).

(** The draft text is nothing but the debug marker and what follows. *)
Definition w_marker_only : World :=
  sample_world inbox (Ok (Some lunch_payload)) follow_up
    ("", Ok (crew_says ["x"] "Type of draft_result: <class 'CrewOutput'>"))
    (Ok draft_obj).

(** The draft crew yields two blanks, its [str] raises, nothing was
    printed. *)
Definition w_blank : World :=
  sample_world inbox (Ok (Some lunch_payload)) follow_up
    ("", Ok {| tasks_output :=
                 Some [ {| output_text := Some "  "; raw_output := None;
                           final_output := None; task_str := "  " |} ];
               crew_str := None |})
    (Ok draft_obj).

(** The fetch fails below HTTP. *)
Definition w_transport : World :=
  sample_world inbox (Raise (OtherException "ServerNotFoundError")) follow_up
    ("", Ok (crew_says ["Sure, noon works."] "Sure, noon works."))
    (Ok draft_obj).

(** The fetch is answered with an HTTP error status. *)
Definition w_not_found : World :=
  sample_world inbox (Raise HttpError) follow_up
    ("", Ok (crew_says ["Sure, noon works."] "Sure, noon works."))
    (Ok draft_obj).

(** The message is a single HTML body. *)
Definition w_html_single : World :=
  sample_world inbox (Ok (Some html_single_payload)) follow_up
    ("", Ok (crew_says ["Sure, noon works."] "Sure, noon works."))
    (Ok draft_obj).

(** The message has an empty plain part next to its HTML part. *)
Definition w_empty_plain : World :=
  sample_world inbox (Ok (Some empty_plain_payload)) follow_up
    ("", Ok (crew_says ["Sure, noon works."] "Sure, noon works."))
    (Ok draft_obj).

(** What [read_message] makes of [lunch_payload]. *)
Definition lunch_message : Message :=
  {| sender := "Ann <ann@example.org>"; subject := "Lunch?";
     body := "Are you free at noon?";
     body_html := "<p>Are you free at <b>noon</b>?</p>" |}.

Definition lunch_decision_crew : Crew :=
  EmailAgents.decision_crew lunch_message "Are you free at noon?".

Definition lunch_draft_crew (decision : option string) : Crew :=
  EmailAgents.draft_crew "Are you free at noon?" decision.

End Samples.

(* ================================================================== *)
(** ** gmail_client.py: authentication *)

Module Auth.

(** A [google.oauth2.credentials.Credentials] object as [authenticate]
    reads it: the attributes [valid], [expired], [refresh_token], and
    what [to_json()] gives. *)
Record Credentials := {
  valid : bool;
  expired : bool;
  refresh_token : option string;
  to_json : string
}.

(** The handle returned by [build("gmail", "v1", credentials=creds)]. *)
Definition Service := nat.

(** The two files next to the module: [token.json] and
    [credentials.json], with their content when they exist. *)
Record files := {
  token_file : option string;
  credentials_file : option string
}.

Inductive auth_event :=
| LoadToken
| Refresh
| ConsentFlow
| WriteToken (content : string)
| Build
| AuthPrinted.

(** The libraries [authenticate] calls. *)
Record AuthWorld := {
  (** [Credentials.from_authorized_user_file(token_path, SCOPES)], from
      the content of the file. *)
  from_authorized_user_file : string -> res Credentials;
  (** [creds.refresh(Request())]: the object after the refresh. *)
  refresh : Credentials -> res Credentials;
  (** [InstalledAppFlow.from_client_secrets_file(creds_path, SCOPES)
      .run_local_server(port=0)], from the client-secret file. *)
  run_local_server : option string -> res Credentials;
  (** [build("gmail", "v1", credentials=creds)] *)
  build : Credentials -> res Service
}.

Record auth_state := {
  disk : files;
  auth_log : list auth_event
}.

(** The fields [authenticate] sets on the client. *)
Record Client := {
  creds : Credentials;
  service : Service
}.

Definition A (X : Type) : Type := auth_state -> res X * auth_state.

Definition aret {X} (x : X) : A X := fun s => (Ok x, s).

Definition abind {X Y} (m : A X) (k : X -> A Y) : A Y :=
  fun s => match m s with
           | (Ok x, s') => k x s'
           | (Raise e, s') => (Raise e, s')
           end.

Definition alift {X} (r : res X) : A X := fun s => (r, s).

Definition note (e : auth_event) : A unit :=
  fun s => (Ok tt, {| disk := disk s; auth_log := auth_log s ++ [e] |}).

(** [os.path.exists(self.token_path)] and the content read from it. *)
Definition read_token : A (option string) :=
  fun s => (Ok (token_file (disk s)), s).

Definition read_client_secret : A (option string) :=
  fun s => (Ok (credentials_file (disk s)), s).

(** [with open(self.token_path, "w") as token: token.write(content)];
    the write itself is taken to succeed. *)
Definition write_token (content : string) : A unit :=
  fun s => (Ok tt,
            {| disk := {| token_file := Some content;
                          credentials_file := credentials_file (disk s) |};
               auth_log := auth_log s ++ [WriteToken content] |}).

Declare Scope auth_scope.
Delimit Scope auth_scope with auth.
Notation "x <- m ;; k" := (abind m (fun x => k))
  (at level 61, m at next level, right associativity) : auth_scope.
Notation "m ;; k" := (abind m (fun _ => k))
  (at level 61, right associativity) : auth_scope.

Section Authenticate.

Variable aw : AuthWorld.

Local Open Scope auth_scope.

(** [creds.refresh_token] as a condition. *)
Definition has_refresh_token (c : Credentials) : bool :=
  match refresh_token c with Some t => PyStr.truthy t | None => false end.

(** Lines 43-52: the branch taken when there is no valid credential. *)
Definition login (cached : option Credentials) : A Credentials :=
  c <- match cached with
       | Some c =>
           if expired c && has_refresh_token c
           then note Refresh ;; alift (refresh aw c)
           else note ConsentFlow ;;
                secret <- read_client_secret ;;
                alift (run_local_server aw secret)
       | None =>
           note ConsentFlow ;;
           secret <- read_client_secret ;;
           alift (run_local_server aw secret)
       end ;;
  write_token (to_json c) ;;
  aret c.

(** [authenticate(self)] *)
Definition authenticate : A Client :=
  token <- read_token ;;
  cached <- match token with
            | Some content =>
                note LoadToken ;;
                c <- alift (from_authorized_user_file aw content) ;;
                aret (Some c)
            | None => aret None
            end ;;
  c <- match cached with
       | Some c => if valid c then aret c else login cached
       | None => login cached
       end ;;
  note Build ;;
  sv <- alift (build aw c) ;;
  note AuthPrinted ;;
  aret {| creds := c; service := sv |}.

End Authenticate.

(** A process that has not yet authenticated. *)
Definition fresh (d : files) : auth_state := {| disk := d; auth_log := [] |}.

End Auth.

(* ================================================================== *)
(** ** More sample worlds *)

Module MoreSamples.

Import Samples.

(** The message carries an attachment and no text. *)
Definition attachment_payload : payload :=
  {| headers := lunch_headers;
     p_mimeType := "multipart/mixed";
     p_data := Some "ignored";
     p_parts := Some [ Part "application/pdf" (Some "JVBERi0xLjQ") None ] |}.

Definition w_attachment : World :=
  sample_world inbox (Ok (Some attachment_payload)) follow_up
    ("", Ok (crew_says ["Sure, noon works."] "Sure, noon works."))
    (Ok draft_obj).

(** The classification crew raises. *)
Definition w_decision_raises : World :=
  sample_world inbox (Ok (Some lunch_payload))
    ("", Raise (OtherException "APIConnectionError"))
    ("", Ok (crew_says ["Sure, noon works."] "Sure, noon works."))
    (Ok draft_obj).

(** The draft crew returns an object without outputs whose [str]
    raises, having printed nothing. *)
Definition mute_output : CrewOutput :=
  {| tasks_output := None; crew_str := None |}.

Definition w_mute : World :=
  sample_world inbox (Ok (Some lunch_payload)) follow_up
    ("", Ok mute_output) (Ok draft_obj).

(** The service refuses the creation of the draft. *)
Definition w_create_fails : World :=
  sample_world inbox (Ok (Some lunch_payload)) follow_up
    ("", Ok (crew_says ["Sure, noon works."] "Sure, noon works."))
    (Raise HttpError).

(** The service answers the creation without an identifier. *)
Definition w_no_id : World :=
  sample_world inbox (Ok (Some lunch_payload)) follow_up
    ("", Ok (crew_says ["Sure, noon works."] "Sure, noon works."))
    (Ok (PyDict [("message", PyDict [])])).

Definition good_creds : Auth.Credentials :=
  {| Auth.valid := true; Auth.expired := false;
     Auth.refresh_token := Some "1//rt"; Auth.to_json := "{good}" |}.

Definition stale_creds : Auth.Credentials :=
  {| Auth.valid := false; Auth.expired := true;
     Auth.refresh_token := Some "1//rt"; Auth.to_json := "{stale}" |}.

Definition renewed_creds : Auth.Credentials :=
  {| Auth.valid := true; Auth.expired := false;
     Auth.refresh_token := Some "1//rt"; Auth.to_json := "{renewed}" |}.

(** Token files hold the JSON form of [good_creds] or [stale_creds];
    a refresh succeeds; the consent flow needs the client-secret file;
    the service is built for valid credentials only. *)
Definition aw_sample : Auth.AuthWorld :=
  {| Auth.from_authorized_user_file := fun content =>
       if (content =? "{good}")%string then Ok good_creds
       else if (content =? "{stale}")%string then Ok stale_creds
       else Raise (OtherException "ValueError");
     Auth.refresh := fun _ => Ok renewed_creds;
     Auth.run_local_server := fun secret =>
       match secret with
       | Some _ => Ok good_creds
       | None => Raise (OtherException "FileNotFoundError")
       end;
     Auth.build := fun c =>
       if Auth.valid c then Ok 1 else Raise (OtherException "RefreshError") |}.

End MoreSamples.

(* ================================================================== *)
(** ** Proof automation *)

(** Symbolic execution of a run: unfold the monadic code, then split on
    the innermost stuck answer of the world or test of the program. *)
Ltac exec :=
  cbv beta iota zeta delta
    [run final_log original_message
     EmailAgents.run_email_automation EmailAgents.get_latest_email
     EmailAgents.triage EmailAgents.drafting EmailAgents.kickoff
     EmailAgents.cleanup EmailAgents.save_draft
     GmailClient.list_messages GmailClient.read_message
     GmailClient.create_draft GmailClient.subscript_id
     bind ret raise try_except lift record print write
     get_stdout set_stdout new_buffer getvalue initial_state
     fst snd log sys_stdout buffer kickoffs created_drafts];
  cbn [app flat_map map In List.length negb last];
  change (String.append EmptyString) with (fun x : string => x);
  cbv beta.

Ltac branch :=
  match goal with
  | |- context [match ?x with _ => _ end] =>
      lazymatch x with
      | context [match _ with _ => _ end] => fail
      | _ => destruct x eqn:?
      end
  end.

Ltac paths := exec; repeat (branch; exec).

(** The same for [authenticate]. *)
Ltac auth_exec :=
  cbv beta iota zeta delta
    [Auth.authenticate Auth.login Auth.abind Auth.aret Auth.alift
     Auth.note Auth.read_token Auth.read_client_secret Auth.write_token
     Auth.fresh Auth.disk Auth.auth_log Auth.token_file
     Auth.credentials_file Auth.creds Auth.service fst snd];
  cbn [app In].

Ltac auth_paths := auth_exec; repeat (branch; auth_exec).

(* ================================================================== *)
(** ** Facts about the string operations *)

Section StringFacts.

Import PyStr.

Lemma append_assoc (a b c : string) : (a ++ b) ++ c = a ++ (b ++ c).
Proof. induction a as [|x a IH]; simpl; [reflexivity | now rewrite IH]. Qed.

Lemma append_empty_r (a : string) : a ++ "" = a.
Proof. induction a as [|x a IH]; simpl; [reflexivity | now rewrite IH]. Qed.

Lemma length_append (a b : string) :
  String.length (a ++ b) = String.length a + String.length b.
Proof. induction a as [|x a IH]; simpl; [reflexivity | now rewrite IH]. Qed.

Lemma lower_app (a b : string) : lower (a ++ b) = lower a ++ lower b.
Proof. induction a as [|x a IH]; simpl; [reflexivity | now rewrite IH]. Qed.

Lemma truthy_empty (s : string) : truthy s = false <-> s = "".
Proof. destruct s; simpl; split; intros H; congruence. Qed.

Lemma truthy_lower (s : string) : truthy (lower s) = truthy s.
Proof. destruct s; reflexivity. Qed.

Lemma prefix_app (a b : string) : prefix a (a ++ b) = true.
Proof.
  induction a as [|x a IH]; simpl.
  - now destruct b.
  - destruct (ascii_dec x x); [assumption | congruence].
Qed.

Lemma prefix_split (a s : string) :
  prefix a s = true -> exists post, s = a ++ post.
Proof.
  revert s; induction a as [|x a IH]; intros s H.
  - now exists s.
  - destruct s as [|y s]; simpl in H; [discriminate|].
    destruct (ascii_dec x y) as [->|]; [|discriminate].
    destruct (IH _ H) as [post ->]. now exists post.
Qed.

Lemma find_eq (sub s : string) :
  find sub s =
  if prefix sub s then Some 0
  else match s with
       | EmptyString => None
       | String _ s' => option_map S (find sub s')
       end.
Proof. destruct s; reflexivity. Qed.

(** An occurrence makes [find] succeed, at or before it. *)
Lemma find_occurs (sub pre post : string) :
  exists i, find sub (pre ++ sub ++ post) = Some i /\ i <= String.length pre.
Proof.
  induction pre as [|c pre IH].
  - exists 0. rewrite find_eq. simpl. now rewrite prefix_app.
  - destruct IH as [i [Hi Hle]]. rewrite find_eq.
    destruct (prefix sub ((String c pre) ++ sub ++ post)).
    + exists 0. split; [reflexivity | apply Nat.le_0_l].
    + exists (S i). simpl. rewrite Hi. split; [reflexivity | lia].
Qed.

(** What [find] returns is an occurrence, and [substring 0 i] is the
    text before it. *)
Lemma find_split (sub s : string) (i : nat) :
  find sub s = Some i ->
  String.length (substring 0 i s) = i /\ occurs_after (substring 0 i s) sub s.
Proof.
  revert i; induction s as [|c s IH]; intros i H; rewrite find_eq in H.
  - destruct (prefix sub "") eqn:P; [|discriminate].
    injection H as <-. split; [reflexivity|].
    destruct (prefix_split _ _ P) as [post E]. now exists post.
  - destruct (prefix sub (String c s)) eqn:P.
    + injection H as <-. split; [reflexivity|].
      destruct (prefix_split _ _ P) as [post E]. now exists post.
    + destruct (find sub s) as [j|] eqn:F; [|discriminate].
      injection H as <-. destruct (IH j eq_refl) as [L [post E]].
      split; [simpl; now rewrite L|].
      exists post. simpl. now rewrite <- E.
Qed.

Lemma contains_iff (sub s : string) :
  contains sub s = true <-> exists pre, occurs_after pre sub s.
Proof.
  unfold contains. split.
  - destruct (find sub s) as [i|] eqn:F; [|discriminate].
    intros _. exists (substring 0 i s). now apply find_split.
  - intros [pre [post ->]].
    destruct (find_occurs sub pre post) as [i [-> _]]. reflexivity.
Qed.

(** [split_head] cuts at the first occurrence: what it keeps is
    followed by [sep], and no occurrence of [sep] starts earlier. *)
Lemma split_head_first (sep s : string) :
  contains sep s = true ->
  occurs_after (split_head sep s) sep s /\
  forall pre, occurs_after pre sep s ->
              String.length (split_head sep s) <= String.length pre.
Proof.
  unfold contains, split_head.
  destruct (find sep s) as [i|] eqn:F; [|discriminate].
  intros _. destruct (find_split _ _ F) as [L O]. split; [assumption|].
  intros pre [post E]. rewrite L.
  destruct (find_occurs sep pre post) as [j [Fj Hj]].
  rewrite <- E, F in Fj. injection Fj as ->. assumption.
Qed.

Lemma split_head_absent (sep s : string) :
  contains sep s = false -> split_head sep s = s.
Proof.
  unfold contains, split_head. now destruct (find sep s).
Qed.

End StringFacts.

Section StripFacts.

Import PyStr.

Lemma rev_app (a b : string) : rev (a ++ b) = rev b ++ rev a.
Proof.
  induction a as [|x a IH]; simpl.
  - now rewrite append_empty_r.
  - now rewrite IH, append_assoc.
Qed.

Lemma rev_involutive (s : string) : rev (rev s) = s.
Proof.
  induction s as [|x s IH]; simpl; [reflexivity|].
  now rewrite rev_app, IH.
Qed.

(** [lstrip] removes a run of white space from the front. *)
Lemma lstrip_suffix (s : string) : exists sp, s = sp ++ lstrip s.
Proof.
  induction s as [|c s [sp IH]]; simpl.
  - now exists "".
  - destruct (isspace c).
    + exists (String c sp). simpl. now rewrite <- IH.
    + now exists "".
Qed.

Lemma lstrip_head (s : string) (c : ascii) (t : string) :
  lstrip s = String c t -> isspace c = false.
Proof.
  induction s as [|x s IH]; simpl; [discriminate|].
  destruct (isspace x) eqn:E; [assumption|].
  intros H. injection H as <- _. assumption.
Qed.

Lemma lstrip_id (s : string) :
  (forall c t, s = String c t -> isspace c = false) -> lstrip s = s.
Proof.
  destruct s as [|x s]; simpl; [reflexivity|].
  intros H. now rewrite (H x s eq_refl).
Qed.

Lemma lstrip_idem (s : string) : lstrip (lstrip s) = lstrip s.
Proof. apply lstrip_id. intros c t. apply lstrip_head. Qed.

(** [rstrip] removes a run of white space from the back. *)
Lemma rstrip_prefix (s : string) : exists sp, s = rstrip s ++ sp.
Proof.
  unfold rstrip. destruct (lstrip_suffix (rev s)) as [sp E].
  exists (rev sp). rewrite <- rev_app, <- E. now rewrite rev_involutive.
Qed.

Lemma rstrip_idem (s : string) : rstrip (rstrip s) = rstrip s.
Proof. unfold rstrip. now rewrite rev_involutive, lstrip_idem. Qed.

Lemma lstrip_rstrip (s : string) : lstrip (rstrip (lstrip s)) = rstrip (lstrip s).
Proof.
  apply lstrip_id. intros c t E.
  destruct (rstrip_prefix (lstrip s)) as [sp P].
  rewrite E in P. simpl in P. exact (lstrip_head _ P).
Qed.

(** Stripping twice is stripping once. *)
Lemma strip_idem (s : string) : strip (strip s) = strip s.
Proof. unfold strip. now rewrite lstrip_rstrip, rstrip_idem. Qed.

Lemma strip_truthy (s : string) : truthy (strip s) = true -> truthy s = true.
Proof. destruct s; [discriminate | reflexivity]. Qed.

End StripFacts.

(* ================================================================== *)
(** ** The MIME traversal *)

Section MimeFacts.

Variable w : World.

Lemma texts_of_parts (mime mime_type : string) (data : option string)
  (ps : list part) :
  Mime.texts_of w mime (Part mime_type data (Some ps)) =
  Mime.own_text w mime mime_type data ++ Mime.texts_of_list w mime ps.
Proof. reflexivity. Qed.

(** The loop body on a part's own data. *)
Lemma own_step (mime_type : string) (data : option string) (b h : string) :
  match data with
  | Some d =>
      if PyStr.truthy d then
        let decoded := b64decode_utf8 w d in
        if (mime_type =? "text/plain")%string then (b ++ decoded, h)
        else if (mime_type =? "text/html")%string then (b, h ++ decoded)
        else (b, h)
      else (b, h)
  | None => (b, h)
  end
  = (b ++ Mime.own_text w "text/plain" mime_type data,
     h ++ Mime.own_text w "text/html" mime_type data).
Proof.
  unfold Mime.own_text.
  destruct data as [d|]; [|now rewrite !append_empty_r].
  destruct (PyStr.truthy d); simpl; [|now rewrite !append_empty_r].
  destruct (String.eqb_spec mime_type "text/plain") as [->|].
  - simpl. now rewrite append_empty_r.
  - destruct (String.eqb_spec mime_type "text/html");
      now rewrite !append_empty_r.
Qed.

(** [extract_parts] appends to [body] the plain-text segments and to
    [body_html] the HTML segments, depth first. *)
Lemma extract_part_texts :
  forall (p : part) (b h : string),
    GmailClient.extract_part w p (b, h)
    = (b ++ Mime.texts_of w "text/plain" p, h ++ Mime.texts_of w "text/html" p).
Proof.
  fix IH 1. intros [mime_type data sub] b h.
  destruct sub as [ps|].
  - rewrite !texts_of_parts. cbn [GmailClient.extract_part fst snd].
    rewrite own_step. rewrite <- !append_assoc.
    generalize (b ++ Mime.own_text w "text/plain" mime_type data).
    generalize (h ++ Mime.own_text w "text/html" mime_type data).
    induction ps as [|q qs IHps]; intros h' b'.
    + simpl. now rewrite !append_empty_r.
    + cbn [Mime.texts_of_list fold_right]. rewrite IH, IHps.
      now rewrite !append_assoc.
  - cbn [GmailClient.extract_part fst snd]. rewrite own_step.
    simpl. now rewrite !append_empty_r.
Qed.

Lemma extract_parts_texts (ps : list part) (b h : string) :
  GmailClient.extract_parts w ps (b, h)
  = (b ++ Mime.texts_of_list w "text/plain" ps,
     h ++ Mime.texts_of_list w "text/html" ps).
Proof.
  unfold GmailClient.extract_parts.
  revert b h; induction ps as [|q qs IH]; intros b h; simpl.
  - now rewrite !append_empty_r.
  - rewrite extract_part_texts, IH. now rewrite !append_assoc.
Qed.

End MimeFacts.

(* ================================================================== *)
(** ** The mail gateway *)

Section GatewayFacts.

Variable w : World.

(** How [read_message] renders the text of a message that has parts. *)
Lemma decode_multipart (p : payload) (ps : list part) :
  p_parts p = Some ps ->
  let plain := Mime.texts_of_list w "text/plain" ps in
  let html := Mime.texts_of_list w "text/html" ps in
  body (GmailClient.decode_message w (Some p))
  = PyStr.strip (if negb (PyStr.truthy plain) && PyStr.truthy html
                 then soup_get_text w html else plain)
  /\ body_html (GmailClient.decode_message w (Some p)) = PyStr.strip html.
Proof.
  intros E. unfold GmailClient.decode_message. rewrite E.
  rewrite extract_parts_texts. simpl. split; reflexivity.
Qed.

(** A multipart message with HTML text and no plain text gets the
    tag-stripped text as its body, white space trimmed. *)
Lemma html_only_multipart (p : payload) (ps : list part) :
  p_parts p = Some ps ->
  Mime.texts_of_list w "text/plain" ps = "" ->
  PyStr.truthy (Mime.texts_of_list w "text/html" ps) = true ->
  body (GmailClient.decode_message w (Some p))
  = PyStr.strip (soup_get_text w (Mime.texts_of_list w "text/html" ps)).
Proof.
  intros E P H. destruct (decode_multipart p E) as [B _].
  rewrite B, P, H. reflexivity.
Qed.

(** The three outcomes of [read_message], by the outcome of the fetch. *)
Lemma read_message_eq (id : string) (s : state) :
  fst (GmailClient.read_message w id s) =
  match messages_get w id with
  | Ok message => Ok (Some (GmailClient.decode_message w message))
  | Raise HttpError => Ok None
  | Raise (OtherException cls) => Raise (OtherException cls)
  end.
Proof.
  unfold GmailClient.read_message, try_except, bind, lift, record, ret, raise, print.
  simpl. destruct (messages_get w id) as [m|[|cls]]; reflexivity.
Qed.

(** C2 (the code departs from the claim).  A message without parts
    whose single body is [text/html] comes back from [read_message] with
    the decoded HTML itself as [body], merely trimmed, and with an empty
    [body_html]: the content type is not looked at on that path, so no
    tag is removed. *)
Theorem single_part_html_body_is_raw (id : string) (s : state)
  (hs : list header) (d : string) :
  messages_get w id
  = Ok (Some {| headers := hs; p_mimeType := "text/html";
                p_data := Some d; p_parts := None |}) ->
  PyStr.truthy d = true ->
  exists m, fst (GmailClient.read_message w id s) = Ok (Some m)
            /\ body m = PyStr.strip (b64decode_utf8 w d)
            /\ body_html m = "".
Proof.
  intros E T. rewrite read_message_eq, E.
  eexists. split; [reflexivity|].
  unfold GmailClient.decode_message. simpl. rewrite T. simpl.
  destruct (PyStr.truthy (b64decode_utf8 w d)); split; reflexivity.
Qed.

(** C5, amended.  For every message with parts whose [text/plain]
    segments, concatenated depth first, are not empty, the [body]
    returned by [read_message] is that concatenation, trimmed, whatever
    HTML parts the message has; [body_html] collects the HTML. *)
Theorem plain_parts_make_body (id : string) (s : state)
  (p : payload) (ps : list part) :
  messages_get w id = Ok (Some p) ->
  p_parts p = Some ps ->
  PyStr.truthy (Mime.texts_of_list w "text/plain" ps) = true ->
  exists m, fst (GmailClient.read_message w id s) = Ok (Some m)
            /\ body m = PyStr.strip (Mime.texts_of_list w "text/plain" ps)
            /\ body_html m = PyStr.strip (Mime.texts_of_list w "text/html" ps).
Proof.
  intros E P T. rewrite read_message_eq, E.
  eexists. split; [reflexivity|].
  destruct (decode_multipart p P) as [B H]. rewrite B, H, T. split; reflexivity.
Qed.

(** C8, amended.  [read_message] returns the normalized record when
    the fetch returns, returns [None] when the fetch raises [HttpError],
    and lets any other exception of the fetch through; so [None] comes
    back exactly when the fetch raised [HttpError]. *)
Theorem read_message_outcomes (id : string) (s : state) :
  fst (GmailClient.read_message w id s) =
    match messages_get w id with
    | Ok message => Ok (Some (GmailClient.decode_message w message))
    | Raise HttpError => Ok None
    | Raise (OtherException cls) => Raise (OtherException cls)
    end
  /\ (fst (GmailClient.read_message w id s) = Ok None
      <-> messages_get w id = Raise HttpError).
Proof.
  split; [apply read_message_eq|].
  rewrite read_message_eq.
  destruct (messages_get w id) as [m|[|cls]]; split; intros H;
    try discriminate; reflexivity.
Qed.

(** C7, amended.  When the service creates the draft and answers with
    an object that has an ["id"], [create_draft] returns that whole
    object, not the identifier; the only request it sends to the service
    is [drafts().create], and the identifier is only printed. *)
Theorem create_draft_returns_draft_object (to subject body : string)
  (s : state) (items : list (string * pyval)) (id : pyval) :
  drafts_create w (mime_raw w to subject body) = Ok (PyDict items) ->
  dict_get "id" items = Some id ->
  GmailClient.create_draft w to subject body s
  = (Ok (PyDict items),
     {| sys_stdout := sys_stdout s; buffer := buffer s;
        log := log s ++ [CallCreateDraft to subject body;
                         ApiDraftsCreate (mime_raw w to subject body);
                         Printed (sys_stdout s) (MsgDraftSaved id)] |}).
Proof.
  intros E I.
  unfold GmailClient.create_draft, GmailClient.subscript_id,
    bind, lift, record, ret, print. simpl.
  rewrite E. simpl. rewrite I. simpl.
  now rewrite <- !app_assoc.
Qed.

End GatewayFacts.

(* ================================================================== *)
(** ** The orchestrator *)

Section DecisionFacts.

Import PyStr.

Lemma scan_outputs_rest (outs : list TaskOutput) (i : nat)
  (acc : option string * option string) :
  2 <= i -> EmailAgents.scan_outputs i outs acc = acc.
Proof.
  revert i acc; induction outs as [|t outs IH]; intros i acc H; simpl.
  - reflexivity.
  - destruct i as [|[|i]]; try lia. apply IH. lia.
Qed.

(** The decision the program branches on is the lower-cased
    classification string. *)
Lemma read_decision_classification (result : CrewOutput) :
  snd (EmailAgents.read_decision result)
  = option_map lower (classification result).
Proof.
  unfold EmailAgents.read_decision, classification.
  destruct (tasks_output result) as [[|t0 [|t1 outs]]|]; simpl; try reflexivity.
  rewrite scan_outputs_rest by lia. reflexivity.
Qed.

Lemma truthy_app_r (a b : string) : truthy b = true -> truthy (a ++ b) = true.
Proof. destruct a; simpl; auto. Qed.

(** A classification that contains the sentinel in any casing takes
    the no-reply branch. *)
Lemma no_reply_of_classification (result : CrewOutput) (c : string) :
  classification result = Some c ->
  contains_anycase "No Reply Needed" c ->
  EmailAgents.no_reply (snd (EmailAgents.read_decision result)) = true.
Proof.
  intros C (pre & m & post & -> & L).
  rewrite read_decision_classification, C. simpl option_map.
  unfold EmailAgents.no_reply. rewrite !lower_app, L.
  change (lower "No Reply Needed") with ("no reply" ++ " needed").
  rewrite append_assoc. apply andb_true_intro. split.
  - apply truthy_app_r. reflexivity.
  - apply contains_iff. exists (lower pre). now exists (" needed" ++ lower post).
Qed.

(** A missing or empty decision does not take it. *)
Lemma no_reply_of_missing (result : CrewOutput) :
  tasks_output result = None
  \/ snd (EmailAgents.read_decision result) = None
  \/ snd (EmailAgents.read_decision result) = Some "" ->
  EmailAgents.no_reply (snd (EmailAgents.read_decision result)) = false.
Proof.
  intros [H|[H|H]].
  - unfold EmailAgents.read_decision. now rewrite H.
  - now rewrite H.
  - now rewrite H.
Qed.

End DecisionFacts.

Section RunFacts.

Variable w : World.

(** C6.  When [list_messages] returns the empty list, the run ends
    normally after five log entries: no crew is kicked off (neither
    summary, classification nor drafting), no message is fetched, and
    [create_draft] is not called. *)
Theorem empty_mailbox_is_noop :
  fst (GmailClient.list_messages w 1 initial_state) = Ok [] ->
  fst (run w) = Ok tt
  /\ final_log w = [Printed Console MsgStarting; ApiMessagesList 1;
                    Printed Console (MsgFound 0);
                    Printed Console MsgNoNewMessages;
                    Printed Console MsgNoEmailData]
  /\ kickoffs (final_log w) = []
  /\ created_drafts (final_log w) = [].
Proof.
  paths; intros H; try discriminate; repeat split; reflexivity.
Qed.

(** C1.  In every run in which the classification crew was kicked off
    and answered with a classification string that contains
    "No Reply Needed" in any casing, the run returns normally,
    [create_draft] is never called, and that crew is the only one kicked
    off: the drafting step is not invoked. *)
Theorem no_reply_needed_never_drafts (crew : Crew) (printed : string)
  (result : CrewOutput) (c : string) :
  In crew (kickoffs (final_log w)) ->
  agents crew = [reader_agent; decision_agent] ->
  kickoff_crew w crew = (printed, Ok result) ->
  classification result = Some c ->
  contains_anycase "No Reply Needed" c ->
  fst (run w) = Ok tt
  /\ created_drafts (final_log w) = []
  /\ kickoffs (final_log w) = [crew].
Proof.
  intros H A K C S. revert H. paths; intros H; try contradiction.
  all: try (destruct H as [<-|[<-|[]]]; [|discriminate A]).
  all: try (destruct H as [<-|[]]).
  all: try congruence.
  all: try (repeat split; reflexivity).
  all: pose proof (no_reply_of_classification _ C S) as N.
  all: rewrite K in *.
  all: match goal with E : (_, _) = (_, Ok _) |- _ => injection E as <- <- end.
  all: match goal with E : EmailAgents.read_decision _ = _ |- _ =>
         rewrite E in N; simpl in N end.
  all: congruence.
Qed.

(** C10.  In every run in which the classification crew was kicked off
    and returned a result without [tasks_output], or one from which the
    extracted decision is [None] or empty, the run does not stop at the
    branch: the draft crew is kicked off next, on the text of the fetched
    message and with that decision in its prompt. *)
Theorem missing_decision_proceeds_to_draft (crew : Crew) (printed : string)
  (result : CrewOutput) :
  In crew (kickoffs (final_log w)) ->
  agents crew = [reader_agent; decision_agent] ->
  kickoff_crew w crew = (printed, Ok result) ->
  tasks_output result = None
  \/ snd (EmailAgents.read_decision result) = None
  \/ snd (EmailAgents.read_decision result) = Some "" ->
  exists email,
    original_message w = Ok (Some email)
    /\ kickoffs (final_log w)
       = [crew; EmailAgents.draft_crew (PyStr.strip (body email))
                  (snd (EmailAgents.read_decision result))]
    /\ In (Printed Console MsgGeneratingDraft) (final_log w)
    /\ ~ In (Printed Console MsgNoReplyNeeded) (final_log w).
Proof.
  intros H A K D. pose proof (no_reply_of_missing _ D) as N. clear D.
  revert H. paths; intros H; try contradiction.
  all: try (destruct H as [<-|[<-|[]]]; [|discriminate A]).
  all: try (destruct H as [<-|[]]).
  all: try congruence.
  all: rewrite K in *.
  all: match goal with E : (_, _) = (_, Ok _) |- _ => injection E as <- <- end.
  all: cbn [snd] in N.
  all: try congruence.
  all: eexists; split; [reflexivity|].
  all: split; [repeat f_equal; congruence|]; split; [tauto|].
  all: intros F; repeat (destruct F as [F|F]; [discriminate F|]); exact F.
Qed.

Lemma nonblank_eq (d : string) :
  PyStr.truthy d && PyStr.truthy (PyStr.strip d) = PyStr.truthy (PyStr.strip d).
Proof.
  destruct (PyStr.truthy (PyStr.strip d)) eqn:E.
  - now rewrite (strip_truthy _ E).
  - apply andb_false_r.
Qed.

(** C3, amended.  In every run that reaches a draft reply [d] (the
    text left after the clean-up) which is not blank, [create_draft] is
    called exactly once, with [to] the sender of the fetched message,
    [subject] its subject prefixed with "Re: ", and [body] equal to
    [d]. *)
Theorem draft_saved_as_reply (dest : stream) (d : string) :
  In (Printed dest (MsgDraftReply d)) (final_log w) ->
  PyStr.truthy (PyStr.strip d) = true ->
  exists email,
    original_message w = Ok (Some email)
    /\ created_drafts (final_log w)
       = [(sender email, "Re: " ++ subject email, d)].
Proof.
  intros H T. revert H. paths; intros H.
  all: repeat (destruct H as [H|H]; [try discriminate H|]); try contradiction.
  all: injection H as <- <-.
  all: try match goal with E : _ && _ = false |- _ =>
             rewrite nonblank_eq in E end.
  all: try congruence.
  all: eexists; split; reflexivity.
Qed.

(** C4, amended.  In every run in which the draft crew returned and
    the fallback chain picked the string [d]: if [d] contains the marker,
    the body given to [create_draft] is the text before the first
    occurrence of the marker with the white space at both ends removed,
    and [create_draft] is not called when nothing is left; if [d] does
    not contain the marker, the body is [d] unchanged, and
    [create_draft] is not called when [d] is blank. *)
Theorem marker_cut_then_stripped (crew : Crew) (printed : string)
  (result : CrewOutput) (d : string) :
  In crew (kickoffs (final_log w)) ->
  agents crew = [draft_agent] ->
  kickoff_crew w crew = (printed, Ok result) ->
  EmailAgents.pick_reply result (PyStr.strip printed) = Some d ->
  map snd (created_drafts (final_log w))
  = if PyStr.contains EmailAgents.MARKER d
    then if PyStr.truthy (PyStr.strip (PyStr.split_head EmailAgents.MARKER d))
         then [PyStr.strip (PyStr.split_head EmailAgents.MARKER d)] else []
    else if PyStr.truthy (PyStr.strip d) then [d] else [].
Proof.
  intros H A K P. revert H.
  destruct (PyStr.contains EmailAgents.MARKER d) eqn:C;
    [destruct (PyStr.truthy (PyStr.strip (PyStr.split_head EmailAgents.MARKER d))) eqn:T
    |destruct (PyStr.truthy (PyStr.strip d)) eqn:T].
  all: paths; intros H; try contradiction.
  all: try (destruct H as [<-|[<-|[]]]; [discriminate A|]).
  all: try (destruct H as [<-|[]]; discriminate A).
  all: rewrite K in *.
  all: try match goal with E : (_, _) = (_, Ok _) |- _ => injection E as <- <- end.
  all: try match goal with E : (_, _) = (_, Raise _) |- _ => discriminate E end.
  all: rewrite P in *.
  all: try match goal with E : Some _ = Some _ |- _ => injection E as <- end.
  all: try match goal with E : _ && _ = _ |- _ =>
             rewrite nonblank_eq in E; rewrite ?strip_idem in E end.
  all: try congruence.
Qed.

(** When the draft crew returns, [sys.stdout] is the console again at
    the end of the run. *)
Lemma stdout_restored_when_draft_returns (crew : Crew) (printed : string)
  (result : CrewOutput) :
  In crew (kickoffs (final_log w)) ->
  agents crew = [draft_agent] ->
  kickoff_crew w crew = (printed, Ok result) ->
  sys_stdout (snd (run w)) = Console.
Proof.
  intros H A K. revert H. paths; intros H; try contradiction; try reflexivity.
  all: try (destruct H as [<-|[<-|[]]]; [discriminate A|]).
  all: try (destruct H as [<-|[]]; discriminate A).
  all: congruence.
Qed.

(** C9 (the code departs from the claim).  In every run in which the
    draft crew was kicked off and raised, the run ends with [sys.stdout]
    still bound to the capture buffer: the handler's message is printed
    into the buffer, and nothing rebinds [sys.stdout] afterwards. *)
Theorem stdout_left_captured_when_draft_raises (crew : Crew)
  (printed : string) (e : exn) :
  In crew (kickoffs (final_log w)) ->
  agents crew = [draft_agent] ->
  kickoff_crew w crew = (printed, Raise e) ->
  fst (run w) = Ok tt
  /\ sys_stdout (snd (run w)) = Capture
  /\ last (final_log w) (Printed Console MsgStarting) = Printed Capture (MsgError e).
Proof.
  intros H A K. revert H. paths; intros H; try contradiction.
  all: try (destruct H as [<-|[<-|[]]]; [discriminate A|]).
  all: try (destruct H as [<-|[]]; discriminate A).
  all: rewrite K in *.
  all: try match goal with E : (_, _) = (_, Ok _) |- _ => discriminate E end.
  all: match goal with E : (_, _) = (_, Raise _) |- _ => injection E as <- <- end.
  all: repeat split; reflexivity.
Qed.

End RunFacts.

(* ================================================================== *)
(** ** The theorems on sample worlds *)

Section Instances.

Import Samples.

Example lower_mixed : PyStr.lower "No REPLY Needed." = "no reply needed.".
Proof. reflexivity. Qed.

Example strip_both : PyStr.strip "  hi there
 " = "hi there".
Proof. reflexivity. Qed.

Example split_head_twice :
  PyStr.split_head "Type of draft_result:"
    "Dear A, Type of draft_result: X Type of draft_result: Y"
  = "Dear A, ".
Proof. reflexivity. Qed.

Example contains_absent : PyStr.contains "no reply" "follow-up" = false.
Proof. reflexivity. Qed.

Example lunch_read :
  fst (GmailClient.read_message w_reply "m-1" initial_state)
  = Ok (Some lunch_message).
Proof. reflexivity. Qed.

Example reply_run_drafts :
  fst (run w_reply) = Ok tt
  /\ created_drafts (final_log w_reply)
     = [("Ann <ann@example.org>", "Re: Lunch?", "Sure, noon works.")]
  /\ sys_stdout (snd (run w_reply)) = Console.
Proof. repeat split; reflexivity. Qed.

(** The nested HTML part is rendered without its tags. *)
Example html_multipart_read :
  option_map body
    match GmailClient.read_message
            (sample_world inbox (Ok (Some html_multipart_payload)) follow_up
               follow_up (Ok draft_obj)) "m-1" initial_state with
    | (Ok m, _) => m
    | _ => None
    end
  = Some "Hi there".
Proof. reflexivity. Qed.

Lemma no_reply_needed_witness :
  fst (run w_no_reply) = Ok tt
  /\ created_drafts (final_log w_no_reply) = []
  /\ kickoffs (final_log w_no_reply) = [lunch_decision_crew].
Proof.
  apply (@no_reply_needed_never_drafts w_no_reply lunch_decision_crew ""
           (crew_says ["A newsletter."; "Decision: No Reply Needed."] "")
           "Decision: No Reply Needed.").
  - vm_compute. left. reflexivity.
  - reflexivity.
  - reflexivity.
  - reflexivity.
  - exists "Decision: ", "No Reply Needed", ".". split; reflexivity.
Defined.

Lemma empty_mailbox_witness :
  fst (run w_empty) = Ok tt
  /\ final_log w_empty = [Printed Console MsgStarting; ApiMessagesList 1;
                          Printed Console (MsgFound 0);
                          Printed Console MsgNoNewMessages;
                          Printed Console MsgNoEmailData]
  /\ kickoffs (final_log w_empty) = []
  /\ created_drafts (final_log w_empty) = [].
Proof. apply (@empty_mailbox_is_noop w_empty). reflexivity. Defined.

Lemma missing_decision_witness :
  exists email,
    original_message w_no_decision = Ok (Some email)
    /\ kickoffs (final_log w_no_decision)
       = [lunch_decision_crew;
          EmailAgents.draft_crew (PyStr.strip (body email))
            (snd (EmailAgents.read_decision
                    {| tasks_output := None; crew_str := Some "Follow-up" |}))]
    /\ In (Printed Console MsgGeneratingDraft) (final_log w_no_decision)
    /\ ~ In (Printed Console MsgNoReplyNeeded) (final_log w_no_decision).
Proof.
  apply (@missing_decision_proceeds_to_draft w_no_decision lunch_decision_crew ""
           {| tasks_output := None; crew_str := Some "Follow-up" |}).
  - vm_compute. left. reflexivity.
  - reflexivity.
  - reflexivity.
  - left. reflexivity.
Defined.

Lemma draft_saved_witness :
  exists email,
    original_message w_reply = Ok (Some email)
    /\ created_drafts (final_log w_reply)
       = [(sender email, "Re: " ++ subject email, "Sure, noon works.")].
Proof.
  apply (@draft_saved_as_reply w_reply Console "Sure, noon works.").
  - vm_compute. tauto.
  - reflexivity.
Defined.

(** C3 as stated fails: the draft reply of this run is the non-empty
    string of two blanks, and [create_draft] is not called. *)
Lemma blank_draft_not_saved :
  EmailAgents.pick_reply
    {| tasks_output :=
         Some [ {| output_text := Some "  "; raw_output := None;
                   final_output := None; task_str := "  " |} ];
       crew_str := None |} (PyStr.strip "") = Some "  "
  /\ In (Printed Console (MsgDraftReply "  ")) (final_log w_blank)
  /\ "  " <> ""
  /\ created_drafts (final_log w_blank) = [].
Proof.
  split; [reflexivity|]. split; [vm_compute; tauto|].
  split; [discriminate | reflexivity].
Qed.

Lemma marker_cut_witness :
  map snd (created_drafts (final_log w_marker))
  = if PyStr.contains EmailAgents.MARKER marked_reply
    then if PyStr.truthy (PyStr.strip (PyStr.split_head EmailAgents.MARKER marked_reply))
         then [PyStr.strip (PyStr.split_head EmailAgents.MARKER marked_reply)] else []
    else if PyStr.truthy (PyStr.strip marked_reply) then [marked_reply] else [].
Proof.
  apply (@marker_cut_then_stripped w_marker (lunch_draft_crew (Some "follow-up")) ""
           {| tasks_output :=
                Some [ {| output_text := Some marked_reply; raw_output := None;
                          final_output := None; task_str := marked_reply |} ];
              crew_str := Some marked_reply |} marked_reply).
  - vm_compute. right. left. reflexivity.
  - reflexivity.
  - reflexivity.
  - reflexivity.
Defined.

(** C4 as stated fails: the draft string cut at the first occurrence of
    the marker ends in two blanks, the body given to [create_draft] does
    not. *)
Lemma marker_cut_is_not_plain_truncation :
  PyStr.contains EmailAgents.MARKER marked_reply = true
  /\ PyStr.split_head EmailAgents.MARKER marked_reply = "Sure, noon works.  "
  /\ created_drafts (final_log w_marker)
     = [("Ann <ann@example.org>", "Re: Lunch?", "Sure, noon works.")]
  /\ "Sure, noon works." <> PyStr.split_head EmailAgents.MARKER marked_reply.
Proof. repeat split; try reflexivity. vm_compute. discriminate. Qed.

(** A draft that is only debug text is cleaned to nothing and not
    saved. *)
Example marker_only_run :
  fst (run w_marker_only) = Ok tt
  /\ In (Printed Console (MsgDraftReply "")) (final_log w_marker_only)
  /\ In (Printed Console MsgNoValidDraft) (final_log w_marker_only)
  /\ created_drafts (final_log w_marker_only) = [].
Proof.
  split; [reflexivity|]. split; [vm_compute; tauto|].
  split; [vm_compute; tauto | reflexivity].
Qed.

Lemma stdout_left_captured_witness :
  fst (run w_draft_raises) = Ok tt
  /\ sys_stdout (snd (run w_draft_raises)) = Capture
  /\ last (final_log w_draft_raises) (Printed Console MsgStarting)
     = Printed Capture (MsgError (OtherException "RateLimitError")).
Proof.
  apply (@stdout_left_captured_when_draft_raises w_draft_raises
           (lunch_draft_crew (Some "follow-up")) "Working...").
  - vm_compute. right. left. reflexivity.
  - reflexivity.
  - reflexivity.
Defined.

Lemma single_part_html_witness :
  exists m, fst (GmailClient.read_message w_html_single "m-1" initial_state)
            = Ok (Some m)
            /\ body m = PyStr.strip (b64decode_utf8 w_html_single
                                       "<p>Hi <i>there</i></p>")
            /\ body_html m = "".
Proof.
  apply (@single_part_html_body_is_raw w_html_single "m-1" initial_state
           lunch_headers "<p>Hi <i>there</i></p>").
  - reflexivity.
  - reflexivity.
Defined.

(** The same run, evaluated: the body keeps its tags, where the
    rendering of that HTML is "Hi there". *)
Example single_part_html_read :
  option_map body
    match GmailClient.read_message w_html_single "m-1" initial_state with
    | (Ok m, _) => m
    | _ => None
    end
  = Some "<p>Hi <i>there</i></p>"
  /\ soup_get_text w_html_single "<p>Hi <i>there</i></p>" = "Hi there".
Proof. split; reflexivity. Qed.

Lemma plain_parts_witness :
  exists m, fst (GmailClient.read_message w_reply "m-1" initial_state)
            = Ok (Some m)
            /\ body m = PyStr.strip
                          (Mime.texts_of_list w_reply "text/plain"
                             [ Part "text/plain" (Some "Are you free at noon? ") None;
                               Part "text/html"
                                 (Some "<p>Are you free at <b>noon</b>?</p>") None ])
            /\ body_html m = PyStr.strip
                               (Mime.texts_of_list w_reply "text/html"
                                  [ Part "text/plain" (Some "Are you free at noon? ") None;
                                    Part "text/html"
                                      (Some "<p>Are you free at <b>noon</b>?</p>") None ]).
Proof.
  apply (@plain_parts_make_body w_reply "m-1" initial_state lunch_payload).
  - reflexivity.
  - reflexivity.
  - reflexivity.
Defined.

(** C5 as stated fails: this message has a [text/plain] part and a
    [text/html] part, and its body is the text of the HTML part, not the
    (empty) concatenation of the plain parts. *)
Lemma empty_plain_part_falls_back_to_html :
  let ps := [ Part "text/plain" None None;
              Part "text/html" (Some "<p>Are you free at <b>noon</b>?</p>") None ] in
  p_parts empty_plain_payload = Some ps
  /\ existsb (Mime.has_mime "text/plain") ps = true
  /\ existsb (Mime.has_mime "text/html") ps = true
  /\ exists m, fst (GmailClient.read_message w_empty_plain "m-1" initial_state)
               = Ok (Some m)
               /\ body m = "Are you free at noon?"
               /\ body m <> PyStr.strip (Mime.texts_of_list w_empty_plain "text/plain" ps).
Proof.
  repeat split; try reflexivity.
  eexists. split; [reflexivity|]. split; [reflexivity|].
  vm_compute. discriminate.
Qed.

Lemma create_draft_witness :
  GmailClient.create_draft w_reply "ann@example.org" "Re: Lunch?" "Sure." initial_state
  = (Ok draft_obj,
     {| sys_stdout := Console; buffer := "";
        log := [CallCreateDraft "ann@example.org" "Re: Lunch?" "Sure.";
                ApiDraftsCreate (mime_raw w_reply "ann@example.org" "Re: Lunch?" "Sure.");
                Printed Console (MsgDraftSaved (PyString "r-42"))] |}).
Proof.
  apply (@create_draft_returns_draft_object w_reply "ann@example.org"
           "Re: Lunch?" "Sure." initial_state
           [("id", PyString "r-42"); ("message", PyDict [("id", PyString "m-7")])]
           (PyString "r-42")).
  - reflexivity.
  - reflexivity.
Defined.

(** C7 as stated fails: the service created the draft identified by
    "r-42", and what [create_draft] returns is the draft object, which
    is not that identifier. *)
Lemma create_draft_does_not_return_id :
  drafts_create w_reply (mime_raw w_reply "ann@example.org" "Re: Lunch?" "Sure.")
  = Ok (PyDict [("id", PyString "r-42"); ("message", PyDict [("id", PyString "m-7")])])
  /\ fst (GmailClient.create_draft w_reply "ann@example.org" "Re: Lunch?" "Sure."
            initial_state)
     = Ok (PyDict [("id", PyString "r-42"); ("message", PyDict [("id", PyString "m-7")])])
  /\ fst (GmailClient.create_draft w_reply "ann@example.org" "Re: Lunch?" "Sure."
            initial_state)
     <> Ok (PyString "r-42").
Proof. repeat split; try reflexivity. vm_compute. discriminate. Qed.

(** C8 as stated fails: the fetch fails with an exception that is not
    an [HttpError], and [read_message] raises it instead of returning a
    failure value. *)
Lemma transport_error_is_raised :
  messages_get w_transport "m-1" = Raise (OtherException "ServerNotFoundError")
  /\ fst (GmailClient.read_message w_transport "m-1" initial_state)
     = Raise (OtherException "ServerNotFoundError")
  /\ fst (GmailClient.read_message w_transport "m-1" initial_state) <> Ok None.
Proof. repeat split; try reflexivity. vm_compute. discriminate. Qed.

(** An HTTP error status, by contrast, gives [None], and the run ends
    without a crew. *)
Example not_found_read :
  fst (GmailClient.read_message w_not_found "m-1" initial_state) = Ok None
  /\ fst (run w_not_found) = Ok tt
  /\ kickoffs (final_log w_not_found) = [].
Proof. repeat split; reflexivity. Qed.

(** The transport error leaves the entry point as an exception. *)
Example transport_error_run :
  fst (run w_transport) = Raise (OtherException "ServerNotFoundError").
Proof. reflexivity. Qed.

End Instances.

(* ================================================================== *)
(** ** Further properties of the mail gateway *)

Section MoreStringFacts.

Import PyStr.

(** What [strip] returns sits inside its argument. *)
Lemma strip_within (s : string) : exists a b, s = a ++ strip s ++ b.
Proof.
  destruct (lstrip_suffix s) as [a Ea].
  destruct (rstrip_prefix (lstrip s)) as [b Eb].
  exists a, b. unfold strip. now rewrite <- Eb.
Qed.

Lemma contains_within (sub a t b : string) :
  contains sub t = true -> contains sub (a ++ t ++ b) = true.
Proof.
  rewrite !contains_iff. intros [pre [post ->]].
  exists (a ++ pre), (post ++ b). now rewrite !append_assoc.
Qed.

Lemma contains_strip (sub s : string) :
  contains sub (strip s) = true -> contains sub s = true.
Proof.
  intros H. destruct (strip_within s) as (a & b & E).
  rewrite E. now apply contains_within.
Qed.

Lemma truthy_length (s : string) : truthy s = true -> 1 <= String.length s.
Proof. destruct s; simpl; [discriminate | lia]. Qed.

(** The text kept by [split_head] holds no occurrence of the
    separator. *)
Lemma split_head_free (sep s : string) :
  truthy sep = true -> contains sep (split_head sep s) = false.
Proof.
  intros T. destruct (contains sep s) eqn:C.
  - destruct (contains sep (split_head sep s)) eqn:D; [|reflexivity].
    exfalso. apply contains_iff in D. destruct D as [pre [post E]].
    destruct (split_head_first _ _ C) as [[post' O] F].
    assert (L : String.length (split_head sep s) <= String.length pre).
    { apply F. exists (post ++ sep ++ post'). rewrite O at 1. rewrite E.
      now rewrite !append_assoc. }
    rewrite E in L. rewrite !length_append in L.
    apply truthy_length in T. lia.
  - now rewrite split_head_absent.
Qed.

End MoreStringFacts.

Section MoreGatewayFacts.

Variable w : World.

Lemma header_value_absent (key default : string) (hs : list header) :
  (forall h, In h hs -> name h <> key) ->
  GmailClient.header_value key default hs = default.
Proof.
  induction hs as [|h hs IH]; intros H; simpl; [reflexivity|].
  destruct (String.eqb_spec (name h) key) as [E|_].
  - exfalso. exact (H h (or_introl eq_refl) E).
  - apply IH. intros h' I. apply H. now right.
Qed.

Lemma header_value_first (key default : string) (pre post : list header)
  (h : header) :
  (forall h', In h' pre -> name h' <> key) ->
  name h = key ->
  GmailClient.header_value key default (pre ++ h :: post)%list = value h.
Proof.
  intros H E. induction pre as [|h' pre IH]; simpl.
  - now rewrite E, String.eqb_refl.
  - destruct (String.eqb_spec (name h') key) as [E'|_].
    + exfalso. exact (H h' (or_introl eq_refl) E').
    + apply IH. intros x I. apply H. now right.
Qed.

(** X1.  The sender and the subject of the record come from the first
    header named exactly "From", respectively "Subject"; without such a
    header they are "Unknown" and "No Subject". *)
Theorem read_message_headers (id : string) (s : state) (p : payload) :
  messages_get w id = Ok (Some p) ->
  exists m,
    fst (GmailClient.read_message w id s) = Ok (Some m)
    /\ ((forall h, In h (headers p) -> name h <> "From") -> sender m = "Unknown")
    /\ ((forall h, In h (headers p) -> name h <> "Subject") ->
        subject m = "No Subject")
    /\ (forall pre h post,
          headers p = (pre ++ h :: post)%list ->
          (forall h', In h' pre -> name h' <> "From") ->
          name h = "From" -> sender m = value h)
    /\ (forall pre h post,
          headers p = (pre ++ h :: post)%list ->
          (forall h', In h' pre -> name h' <> "Subject") ->
          name h = "Subject" -> subject m = value h).
Proof.
  intros E. rewrite read_message_eq, E. eexists. split; [reflexivity|].
  unfold GmailClient.decode_message.
  destruct (match p_parts p with Some _ => _ | None => _ end) as [b h0].
  cbn [sender subject]. repeat split.
  - apply header_value_absent.
  - apply header_value_absent.
  - intros pre h post -> H N. now apply header_value_first.
  - intros pre h post -> H N. now apply header_value_first.
Qed.

(** X2.  [extract_parts] is the depth-first traversal: started on
    ([body], [body_html]), it appends to [body] the decoded data of the
    [text/plain] parts and to [body_html] that of the [text/html] parts,
    each part before its nested parts, in order; parts of any other
    type, and parts without data, add nothing. *)
Theorem extract_parts_depth_first (ps : list part) (b h : string) :
  GmailClient.extract_parts w ps (b, h)
  = (b ++ Mime.texts_of_list w "text/plain" ps,
     h ++ Mime.texts_of_list w "text/html" ps).
Proof.
  unfold GmailClient.extract_parts, Mime.texts_of_list.
  revert b h; induction ps as [|q qs IH]; intros b h; simpl.
  - now rewrite !append_empty_r.
  - rewrite extract_part_texts, IH. now rewrite !append_assoc.
Qed.

(** X3.  The body rule for a message with parts: [body] is the
    trimmed plain text collected from the parts, unless that text is
    empty and some HTML was collected, in which case it is the trimmed
    text rendering of the HTML; [body_html] is the trimmed HTML.  The
    payload's own content type and data play no role, and a message
    whose parts carry no text at all gets an empty [body]. *)
Theorem multipart_body_rule (id : string) (s : state) (p : payload)
  (ps : list part) :
  messages_get w id = Ok (Some p) ->
  p_parts p = Some ps ->
  exists m,
    fst (GmailClient.read_message w id s) = Ok (Some m)
    /\ body m
       = PyStr.strip
           (if negb (PyStr.truthy (Mime.texts_of_list w "text/plain" ps))
               && PyStr.truthy (Mime.texts_of_list w "text/html" ps)
            then soup_get_text w (Mime.texts_of_list w "text/html" ps)
            else Mime.texts_of_list w "text/plain" ps)
    /\ body_html m = PyStr.strip (Mime.texts_of_list w "text/html" ps)
    /\ (Mime.texts_of_list w "text/plain" ps = "" ->
        Mime.texts_of_list w "text/html" ps = "" -> body m = "").
Proof.
  intros E P. rewrite read_message_eq, E. eexists. split; [reflexivity|].
  destruct (decode_multipart w p P) as [B H]. rewrite B, H.
  repeat split. intros -> ->. reflexivity.
Qed.

(** X4.  When the service answers the creation with an object that has
    no "id", [create_draft] raises [KeyError] after the request was
    sent: the draft exists, nothing is returned and nothing printed. *)
Theorem create_draft_without_id_raises (to subject body : string)
  (s : state) (items : list (string * pyval)) :
  drafts_create w (mime_raw w to subject body) = Ok (PyDict items) ->
  dict_get "id" items = None ->
  GmailClient.create_draft w to subject body s
  = (Raise KeyError,
     {| sys_stdout := sys_stdout s; buffer := buffer s;
        log := log s ++ [CallCreateDraft to subject body;
                         ApiDraftsCreate (mime_raw w to subject body)] |}).
Proof.
  intros E I.
  unfold GmailClient.create_draft, GmailClient.subscript_id,
    bind, lift, record, ret, raise, print. simpl.
  rewrite E. simpl. rewrite I. simpl.
  now rewrite <- !app_assoc.
Qed.

End MoreGatewayFacts.

(* ================================================================== *)
(** ** Further properties of the orchestrator *)

Section MoreDecisionFacts.

(** X5.  The loop over the task outputs keeps only the first two:
    the summary is the value of output 0, the decision the lower-cased
    value of output 1, whatever follows. *)
Theorem read_decision_first_two (t0 t1 : TaskOutput) (rest : list TaskOutput)
  (str : option string) :
  EmailAgents.read_decision
    {| tasks_output := Some (t0 :: t1 :: rest); crew_str := str |}
  = (Some (EmailAgents.output_value t0),
     Some (PyStr.lower (EmailAgents.output_value t1))).
Proof.
  unfold EmailAgents.read_decision. simpl.
  now rewrite scan_outputs_rest by lia.
Qed.

(** X6.  The text picked by the fallback chain is blank exactly when
    all three sources are: the structured output is missing or blank,
    [str(draft_result)] raises or is blank, and nothing but white space
    was printed during the kickoff. *)
Theorem pick_reply_blank_iff (draft_result : CrewOutput) (text : string) :
  EmailAgents.blank (EmailAgents.pick_reply draft_result (PyStr.strip text)) = true
  <-> EmailAgents.blank (EmailAgents.structured_reply draft_result) = true
      /\ match crew_str draft_result with
         | Some s => PyStr.truthy (PyStr.strip s) = false
         | None => True
         end
      /\ PyStr.truthy (PyStr.strip text) = false.
Proof.
  unfold EmailAgents.pick_reply.
  destruct (EmailAgents.blank (EmailAgents.structured_reply draft_result)) eqn:B.
  - destruct (crew_str draft_result) as [s|].
    + unfold EmailAgents.blank at 1 2. rewrite strip_idem, orb_diag.
      destruct (PyStr.truthy (PyStr.strip s)) eqn:S; simpl.
      * unfold EmailAgents.blank. rewrite strip_idem, S. simpl.
        split; [discriminate | intros (_ & F & _); discriminate].
      * destruct (PyStr.truthy (PyStr.strip text)) eqn:T; simpl.
        -- unfold EmailAgents.blank. rewrite strip_idem, T. simpl.
           split; [discriminate | intros (_ & _ & F); discriminate].
        -- unfold EmailAgents.blank. rewrite strip_idem, S. simpl. tauto.
    + rewrite B. simpl.
      destruct (PyStr.truthy (PyStr.strip text)) eqn:T; simpl.
      * unfold EmailAgents.blank. rewrite strip_idem, T. simpl.
        split; [discriminate | intros (_ & _ & F); discriminate].
      * rewrite B. tauto.
  - rewrite B. simpl. rewrite B. split; [discriminate | intros (F & _); discriminate].
Qed.

End MoreDecisionFacts.

Section MoreRunFacts.

Variable w : World.



(** X8.  When the body of the fetched message is blank, the run stops
    before any crew is kicked off: it returns normally, its last message
    is the empty-body notice, and [create_draft] is not called. *)
Theorem blank_body_skips_run (email : Message) :
  original_message w = Ok (Some email) ->
  PyStr.truthy (PyStr.strip (body email)) = false ->
  fst (run w) = Ok tt
  /\ kickoffs (final_log w) = []
  /\ created_drafts (final_log w) = []
  /\ last (final_log w) (Printed Console MsgStarting)
     = Printed Console MsgEmptyBody.
Proof.
  intros O B. revert O. paths; intros O; try discriminate O.
  all: injection O as <-.
  all: try (rewrite B in *; discriminate).
  all: repeat split; reflexivity.
Qed.

(** X9.  When the fetch of the listed message raises [HttpError], the
    run ends normally after the listing and the fetch, with the three
    notices of the failure path; no crew is kicked off. *)
Theorem http_error_fetch_is_noop (first : message_ref)
  (rest : list message_ref) :
  messages_list w 1 = Ok (Some (first :: rest)) ->
  messages_get w (msg_id first) = Raise HttpError ->
  fst (run w) = Ok tt
  /\ final_log w = [Printed Console MsgStarting; ApiMessagesList 1;
                    Printed Console (MsgFound (S (List.length rest)));
                    ApiMessagesGet (msg_id first);
                    Printed Console MsgHttpError;
                    Printed Console MsgUnexpectedFormat;
                    Printed Console MsgNoEmailData]
  /\ kickoffs (final_log w) = [].
Proof.
  intros L G. exec. rewrite L. exec. rewrite G. exec.
  repeat split; reflexivity.
Qed.

(** X10.  A run sends at most three requests to the mail service, in
    this order: one listing with [maxResults = 1], at most one fetch, at
    most one draft creation.  It kicks off at most two crews and calls
    [create_draft] at most once. *)
Theorem run_bounds :
  List.length (kickoffs (final_log w)) <= 2
  /\ List.length (created_drafts (final_log w)) <= 1
  /\ (api_calls (final_log w) = [ApiMessagesList 1]
      \/ (exists id, api_calls (final_log w)
                     = [ApiMessagesList 1; ApiMessagesGet id])
      \/ (exists id raw, api_calls (final_log w)
                         = [ApiMessagesList 1; ApiMessagesGet id;
                            ApiDraftsCreate raw])).
Proof.
  paths; unfold api_calls; cbn [filter List.length].
  all: split; [lia|]; split; [lia|].
  all: first [ left; reflexivity
             | right; left; eexists; reflexivity
             | right; right; do 2 eexists; reflexivity ].
Qed.


(** X12.  Whatever the world answers, every call of [create_draft]
    made by a run has a body that is not blank and does not contain the
    debug marker, is addressed to the sender of the fetched message, and
    has its subject prefixed with "Re: ". *)
Theorem drafts_are_clean (to subject' body' : string) :
  In (to, subject', body') (created_drafts (final_log w)) ->
  PyStr.truthy (PyStr.strip body') = true
  /\ PyStr.contains EmailAgents.MARKER body' = false
  /\ exists email,
       original_message w = Ok (Some email)
       /\ to = sender email
       /\ subject' = "Re: " ++ subject email.
Proof.
  paths; intros H; try contradiction.
  all: destruct H as [H|[]]; injection H as <- <- <-.
  all: match goal with E : _ && _ = true |- _ =>
         apply andb_prop in E; destruct E as [_ E] end.
  all: split; [rewrite ?strip_idem in *; assumption|].
  all: split; [|eexists; repeat split; reflexivity].
  all: try assumption.
  all: match goal with |- PyStr.contains ?m (PyStr.strip ?x) = false =>
         destruct (PyStr.contains m (PyStr.strip x)) eqn:C; [|reflexivity];
         apply contains_strip in C;
         rewrite split_head_free in C by reflexivity; discriminate C end.
Qed.

(** X13.  When the draft crew returns and nothing at all can be
    picked as its text (no structured output, [str] raises, nothing
    printed), the clean-up step raises [TypeError]: the run ends through
    the handler, which prints the error; the no-valid-draft notice is
    not printed and [create_draft] is not called. *)
Theorem no_draft_text_raises_type_error (crew : Crew) (printed : string)
  (result : CrewOutput) :
  In crew (kickoffs (final_log w)) ->
  agents crew = [draft_agent] ->
  kickoff_crew w crew = (printed, Ok result) ->
  EmailAgents.pick_reply result (PyStr.strip printed) = None ->
  fst (run w) = Ok tt
  /\ last (final_log w) (Printed Console MsgStarting)
     = Printed Console (MsgError TypeError)
  /\ created_drafts (final_log w) = []
  /\ ~ In (Printed Console MsgNoValidDraft) (final_log w).
Proof.
  intros H A K P. revert H. paths; intros H; try contradiction.
  all: try (destruct H as [<-|[<-|[]]]; [discriminate A|]).
  all: try (destruct H as [<-|[]]; discriminate A).
  all: rewrite K in *.
  all: try match goal with E : (_, _) = (_, Raise _) |- _ => discriminate E end.
  all: match goal with E : (_, _) = (_, Ok _) |- _ => injection E as <- <- end.
  all: rewrite P in *; try discriminate.
  all: repeat split; try reflexivity.
  all: intros F; repeat (destruct F as [F|F]; [discriminate F|]); exact F.
Qed.

(** X14.  When the classification crew raises, the handler prints the
    error on the console and the run returns normally: that crew is the
    only one kicked off and [create_draft] is not called. *)
Theorem decision_crew_failure_logged (crew : Crew) (printed : string) (e : exn) :
  In crew (kickoffs (final_log w)) ->
  agents crew = [reader_agent; decision_agent] ->
  kickoff_crew w crew = (printed, Raise e) ->
  fst (run w) = Ok tt
  /\ kickoffs (final_log w) = [crew]
  /\ created_drafts (final_log w) = []
  /\ last (final_log w) (Printed Console MsgStarting)
     = Printed Console (MsgError e).
Proof.
  intros H A K. revert H. paths; intros H; try contradiction.
  all: try (destruct H as [<-|[<-|[]]]; [|discriminate A]).
  all: try (destruct H as [<-|[]]).
  all: rewrite K in *.
  all: try match goal with E : (_, _) = (_, Ok _) |- _ => discriminate E end.
  all: match goal with E : (_, _) = (_, Raise _) |- _ => injection E as <- <- end.
  all: repeat split; reflexivity.
Qed.

(** X15.  When the request that creates the draft raises, the
    exception is caught by the handler of the run: the run returns
    normally, its last message is the error, and the success notice is
    not printed. *)
Theorem draft_creation_failure_logged (raw : string) (e : exn) :
  In (ApiDraftsCreate raw) (final_log w) ->
  drafts_create w raw = Raise e ->
  fst (run w) = Ok tt
  /\ last (final_log w) (Printed Console MsgStarting)
     = Printed Console (MsgError e)
  /\ ~ In (Printed Console MsgDraftCreated) (final_log w).
Proof.
  intros H K. revert H. paths; intros H.
  all: repeat (destruct H as [H|H]; [try discriminate H|]); try contradiction.
  all: injection H as <-.
  all: cbn [String.append] in *.
  all: rewrite K in *; try discriminate.
  all: match goal with E : Raise _ = Raise _ |- _ => injection E as <- end.
  all: repeat split; try reflexivity.
  all: intros F; repeat (destruct F as [F|F]; [discriminate F|]); exact F.
Qed.

End MoreRunFacts.

(* ================================================================== *)
(** ** Authentication *)

Section AuthFacts.

Import Auth.

Variable aw : AuthWorld.

(** X16.  With a token file whose credentials are valid,
    [authenticate] neither refreshes nor opens the consent flow nor
    writes any file: it loads the token, builds the service with those
    credentials and prints. *)
Theorem valid_token_is_reused (content : string) (secret : option string)
  (c : Credentials) (sv : Service) :
  from_authorized_user_file aw content = Ok c ->
  valid c = true ->
  build aw c = Ok sv ->
  authenticate aw (fresh {| token_file := Some content;
                            credentials_file := secret |})
  = (Ok {| creds := c; service := sv |},
     {| disk := {| token_file := Some content; credentials_file := secret |};
        auth_log := [LoadToken; Build; AuthPrinted] |}).
Proof.
  intros L V B. auth_exec. rewrite L. auth_exec. rewrite V. auth_exec.
  rewrite B. auth_exec. reflexivity.
Qed.

(** X17.  After a successful [authenticate] the service was built with
    the credentials kept on the client, the client-secret file is
    untouched, and either those credentials are the valid ones loaded
    from the token file, which was not written, or the token file now
    holds their JSON form. *)
Theorem successful_auth_token_invariant (d : files) (client : Client)
  (s' : auth_state) :
  authenticate aw (fresh d) = (Ok client, s') ->
  build aw (creds client) = Ok (service client)
  /\ credentials_file (disk s') = credentials_file d
  /\ ((disk s' = d
       /\ valid (creds client) = true
       /\ exists content, token_file d = Some content
                          /\ from_authorized_user_file aw content
                             = Ok (creds client))
      \/ (token_file (disk s') = Some (to_json (creds client))
          /\ In (WriteToken (to_json (creds client))) (auth_log s'))).
Proof.
  destruct d as [tok sec]. auth_paths; intros H; try discriminate H.
  all: injection H; intros; subst; cbn [In].
  all: split; [assumption|]; split; [reflexivity|].
  all: first [ left; split; [reflexivity|]; split; [assumption|];
               eexists; split; [reflexivity|assumption]
             | right; split; [reflexivity|]; cbn [In]; tauto ].
Qed.


(** X19.  When [authenticate] raises, the files are as before, unless
    the exception came from building the service after a fresh login or
    refresh: then the new token is already on disk. *)
Theorem failed_auth_disk (d : files) (e : exn) (s' : auth_state) :
  authenticate aw (fresh d) = (Raise e, s') ->
  disk s' = d
  \/ exists c, build aw c = Raise e
               /\ token_file (disk s') = Some (to_json c)
               /\ credentials_file (disk s') = credentials_file d.
Proof.
  destruct d as [tok sec]. auth_paths; intros H; try discriminate H.
  all: injection H; intros; subst.
  all: first [ left; reflexivity
             | right; eexists; split; [eassumption|]; split; reflexivity ].
Qed.

End AuthFacts.

(* ================================================================== *)
(** ** The further properties on sample worlds *)

Section MoreInstances.

Import Samples MoreSamples.

Lemma read_message_headers_witness :
  exists m,
    fst (GmailClient.read_message w_reply "m-1" initial_state) = Ok (Some m)
    /\ ((forall h, In h (headers lunch_payload) -> name h <> "From") ->
        sender m = "Unknown")
    /\ ((forall h, In h (headers lunch_payload) -> name h <> "Subject") ->
        subject m = "No Subject")
    /\ (forall pre h post,
          headers lunch_payload = (pre ++ h :: post)%list ->
          (forall h', In h' pre -> name h' <> "From") ->
          name h = "From" -> sender m = value h)
    /\ (forall pre h post,
          headers lunch_payload = (pre ++ h :: post)%list ->
          (forall h', In h' pre -> name h' <> "Subject") ->
          name h = "Subject" -> subject m = value h).
Proof.
  apply (@read_message_headers w_reply "m-1" initial_state lunch_payload).
  reflexivity.
Defined.

Lemma multipart_body_rule_witness :
  let ps := [ Part "application/pdf" (Some "JVBERi0xLjQ") None ] in
  exists m,
    fst (GmailClient.read_message w_attachment "m-1" initial_state) = Ok (Some m)
    /\ body m
       = PyStr.strip
           (if negb (PyStr.truthy (Mime.texts_of_list w_attachment "text/plain" ps))
               && PyStr.truthy (Mime.texts_of_list w_attachment "text/html" ps)
            then soup_get_text w_attachment
                   (Mime.texts_of_list w_attachment "text/html" ps)
            else Mime.texts_of_list w_attachment "text/plain" ps)
    /\ body_html m = PyStr.strip (Mime.texts_of_list w_attachment "text/html" ps)
    /\ (Mime.texts_of_list w_attachment "text/plain" ps = "" ->
        Mime.texts_of_list w_attachment "text/html" ps = "" -> body m = "").
Proof.
  apply (@multipart_body_rule w_attachment "m-1" initial_state attachment_payload).
  - reflexivity.
  - reflexivity.
Defined.

Lemma create_draft_without_id_witness :
  GmailClient.create_draft w_no_id "ann@example.org" "Re: Lunch?" "Sure." initial_state
  = (Raise KeyError,
     {| sys_stdout := Console; buffer := "";
        log := [CallCreateDraft "ann@example.org" "Re: Lunch?" "Sure.";
                ApiDraftsCreate (mime_raw w_no_id "ann@example.org" "Re: Lunch?" "Sure.")] |}).
Proof.
  apply (@create_draft_without_id_raises w_no_id "ann@example.org" "Re: Lunch?"
           "Sure." initial_state [("message", PyDict [])]).
  - reflexivity.
  - reflexivity.
Defined.

Lemma blank_body_witness :
  fst (run w_attachment) = Ok tt
  /\ kickoffs (final_log w_attachment) = []
  /\ created_drafts (final_log w_attachment) = []
  /\ last (final_log w_attachment) (Printed Console MsgStarting)
     = Printed Console MsgEmptyBody.
Proof.
  apply (@blank_body_skips_run w_attachment
           {| sender := "Ann <ann@example.org>"; subject := "Lunch?";
              body := ""; body_html := "" |}).
  - reflexivity.
  - reflexivity.
Defined.

Lemma http_error_fetch_witness :
  fst (run w_not_found) = Ok tt
  /\ final_log w_not_found
     = [Printed Console MsgStarting; ApiMessagesList 1;
        Printed Console (MsgFound (S (List.length (@nil message_ref))));
        ApiMessagesGet (msg_id {| msg_id := "m-1" |});
        Printed Console MsgHttpError;
        Printed Console MsgUnexpectedFormat;
        Printed Console MsgNoEmailData]
  /\ kickoffs (final_log w_not_found) = [].
Proof.
  apply (@http_error_fetch_is_noop w_not_found {| msg_id := "m-1" |} []).
  - reflexivity.
  - reflexivity.
Defined.


Lemma drafts_are_clean_witness :
  PyStr.truthy (PyStr.strip "Sure, noon works.") = true
  /\ PyStr.contains EmailAgents.MARKER "Sure, noon works." = false
  /\ exists email,
       original_message w_marker = Ok (Some email)
       /\ "Ann <ann@example.org>" = sender email
       /\ "Re: Lunch?" = "Re: " ++ subject email.
Proof.
  apply (@drafts_are_clean w_marker "Ann <ann@example.org>" "Re: Lunch?"
           "Sure, noon works.").
  vm_compute. left. reflexivity.
Defined.

Lemma no_draft_text_witness :
  fst (run w_mute) = Ok tt
  /\ last (final_log w_mute) (Printed Console MsgStarting)
     = Printed Console (MsgError TypeError)
  /\ created_drafts (final_log w_mute) = []
  /\ ~ In (Printed Console MsgNoValidDraft) (final_log w_mute).
Proof.
  apply (@no_draft_text_raises_type_error w_mute
           (lunch_draft_crew (Some "follow-up")) "" mute_output).
  - vm_compute. right. left. reflexivity.
  - reflexivity.
  - reflexivity.
  - reflexivity.
Defined.

Lemma decision_crew_failure_witness :
  fst (run w_decision_raises) = Ok tt
  /\ kickoffs (final_log w_decision_raises) = [lunch_decision_crew]
  /\ created_drafts (final_log w_decision_raises) = []
  /\ last (final_log w_decision_raises) (Printed Console MsgStarting)
     = Printed Console (MsgError (OtherException "APIConnectionError")).
Proof.
  apply (@decision_crew_failure_logged w_decision_raises lunch_decision_crew "").
  - vm_compute. left. reflexivity.
  - reflexivity.
  - reflexivity.
Defined.

Lemma draft_creation_failure_witness :
  fst (run w_create_fails) = Ok tt
  /\ last (final_log w_create_fails) (Printed Console MsgStarting)
     = Printed Console (MsgError HttpError)
  /\ ~ In (Printed Console MsgDraftCreated) (final_log w_create_fails).
Proof.
  apply (@draft_creation_failure_logged w_create_fails
           (mime_raw w_create_fails "Ann <ann@example.org>" "Re: Lunch?"
              "Sure, noon works.")).
  - vm_compute. tauto.
  - reflexivity.
Defined.

Lemma valid_token_witness :
  Auth.authenticate aw_sample
    (Auth.fresh {| Auth.token_file := Some "{good}";
                   Auth.credentials_file := None |})
  = (Ok {| Auth.creds := good_creds; Auth.service := 1 |},
     {| Auth.disk := {| Auth.token_file := Some "{good}";
                        Auth.credentials_file := None |};
        Auth.auth_log := [Auth.LoadToken; Auth.Build; Auth.AuthPrinted] |}).
Proof.
  apply (@valid_token_is_reused aw_sample "{good}" None good_creds 1).
  - reflexivity.
  - reflexivity.
  - reflexivity.
Defined.

(** A stale token is refreshed and the renewed one is written. *)
Lemma refreshed_token_witness :
  let d := {| Auth.token_file := Some "{stale}"; Auth.credentials_file := None |} in
  let client := {| Auth.creds := renewed_creds; Auth.service := 1 |} in
  let s' := {| Auth.disk := {| Auth.token_file := Some "{renewed}";
                               Auth.credentials_file := None |};
               Auth.auth_log := [Auth.LoadToken; Auth.Refresh;
                                 Auth.WriteToken "{renewed}";
                                 Auth.Build; Auth.AuthPrinted] |} in
  Auth.build aw_sample (Auth.creds client) = Ok (Auth.service client)
  /\ Auth.credentials_file (Auth.disk s') = Auth.credentials_file d
  /\ ((Auth.disk s' = d
       /\ Auth.valid (Auth.creds client) = true
       /\ exists content, Auth.token_file d = Some content
                          /\ Auth.from_authorized_user_file aw_sample content
                             = Ok (Auth.creds client))
      \/ (Auth.token_file (Auth.disk s') = Some (Auth.to_json (Auth.creds client))
          /\ In (Auth.WriteToken (Auth.to_json (Auth.creds client)))
                (Auth.auth_log s'))).
Proof.
  intros d client s'.
  apply (@successful_auth_token_invariant aw_sample d client s').
  reflexivity.
Defined.

(** Without a token file and without a client-secret file the consent
    flow fails and nothing is written. *)
Lemma failed_auth_witness :
  let d := {| Auth.token_file := None; Auth.credentials_file := None |} in
  let s' := {| Auth.disk := d; Auth.auth_log := [Auth.ConsentFlow] |} in
  Auth.disk s' = d
  \/ exists c, Auth.build aw_sample c = Raise (OtherException "FileNotFoundError")
               /\ Auth.token_file (Auth.disk s') = Some (Auth.to_json c)
               /\ Auth.credentials_file (Auth.disk s') = Auth.credentials_file d.
Proof.
  intros d s'.
  apply (@failed_auth_disk aw_sample d (OtherException "FileNotFoundError") s').
  reflexivity.
Defined.

End MoreInstances.
